(** * The Fireblocks API client ([fireblocks_sdk/sdk.py]) as a shallow embedding

    The client builds a request path and an optional body, asks its token
    provider for a signed token, attaches the token and the API key as
    headers and hands the request to the [requests] transport.

    The token provider and the transport are outside [sdk.py].  They are
    modelled as oracles of an environment [Env]: each call is answered from
    the history of calls made so far and is appended to a log, so that the
    order and the arguments of every external call can be stated and proved.

    Conventions of the model:
    - a Python [str] is a Coq [string] whose characters are the code points
      below 256;
    - arguments have the types their docstrings give them ([str], [int],
      [bool], optional ones as [option]); the transfer source and destination,
      which the code inspects with [isinstance], and the values that are only
      copied into a request body are dynamically typed ([PyVal]);
    - numbers are integers: floating-point amounts are not modelled;
    - the collaborators are handed values: they cannot reach the client
      object, which only the methods of the client could change. *)

From Stdlib Require Import String Ascii ZArith NArith List Bool Lia DecimalString.
Import ListNotations.

Local Open Scope string_scope.
Local Open Scope Z_scope.

(** ** Python values *)

Module Py.

(** The classes that occur: the built-in ones, the two transfer-path
    classes of [api_types] and any other user class. *)
Inductive PyClass : Type :=
| NoneType
| ClsBool
| ClsInt
| ClsStr
| ClsList
| ClsDict
| ClsType
| TransferPeerPath
| DestinationTransferPeerPath
| UserClass (name : string).

#[warnings="-register-all"]
Inductive PyVal : Type :=
| PyNone
| PyBool (b : bool)
| PyInt (z : Z)
| PyStr (s : string)
| PyList (xs : list PyVal)
| PyDict (items : list (string * PyVal))
| PyInst (cls : PyClass) (attrs : list (string * PyVal))
| PyType (cls : PyClass).

(** Exceptions that can reach the caller of an operation. *)
Inductive Exn : Type :=
| FireblocksApiException (msg : string)
| TypeError
| AttributeError
| ValueError
| ForeignError (what : string).

Inductive Outcome (A : Type) : Type :=
| Return (a : A)
| Raise (e : Exn).
Arguments Return {A} a.
Arguments Raise {A} e.

(** [bool(v)]: the truth value tested by [if v:] and [v or w]. *)
Definition truthy (v : PyVal) : bool :=
  match v with
  | PyNone => false
  | PyBool b => b
  | PyInt z => negb (z =? 0)
  | PyStr s => negb (s =? "")%string
  | PyList xs => match xs with [] => false | _ => true end
  | PyDict kv => match kv with [] => false | _ => true end
  | PyInst _ _ => true
  | PyType _ => true
  end.

Definition str_truthy (s : string) : bool := negb (s =? "")%string.

(** [o or ''] for an optional [str]. *)
Definition or_empty (o : option string) : string :=
  match o with
  | Some s => if str_truthy s then s else ""
  | None => ""
  end.

(** An optional [str] as a value. *)
Definition of_opt_str (o : option string) : PyVal :=
  match o with
  | Some s => PyStr s
  | None => PyNone
  end.

(** [type(v)] *)
Definition class_of (v : PyVal) : PyClass :=
  match v with
  | PyNone => NoneType
  | PyBool _ => ClsBool
  | PyInt _ => ClsInt
  | PyStr _ => ClsStr
  | PyList _ => ClsList
  | PyDict _ => ClsDict
  | PyInst c _ => c
  | PyType _ => ClsType
  end.

Definition type_ (v : PyVal) : PyVal := PyType (class_of v).

(** [s + v] for a [str] on the left: only another [str] can be
    concatenated, anything else raises [TypeError]. *)
Definition str_add (s : string) (v : PyVal) : Outcome string :=
  match v with
  | PyStr t => Return (s ++ t)
  | _ => Raise TypeError
  end.

(** [v.__dict__] *)
Definition dunder_dict (v : PyVal) : Outcome PyVal :=
  match v with
  | PyInst _ attrs => Return (PyDict attrs)
  | _ => Raise AttributeError
  end.

(** [d[k] = v] on a dict kept in insertion order: an existing key keeps
    its place, a new key goes last. *)
Fixpoint dict_set {V : Type} (d : list (string * V)) (k : string) (v : V)
  : list (string * V) :=
  match d with
  | [] => [(k, v)]
  | (k', v') :: rest =>
      if (k' =? k)%string then (k, v) :: rest
      else (k', v') :: dict_set rest k v
  end.

(** [s in t] for a [str] and a tuple of [str]s. *)
Definition str_in (s : string) (t : list string) : bool :=
  existsb (String.eqb s) t.

(** [str(z)] for an [int]. *)
Definition str_of_int (z : Z) : string :=
  NilZero.string_of_int (Z.to_int z).

End Py.
Export Py.

(** ** [urllib.parse]: [quote_plus] and [urlencode] *)

Module Urllib.

Definition hex_digit (n : N) : ascii :=
  match n with
  | 0%N => "0" | 1%N => "1" | 2%N => "2" | 3%N => "3"
  | 4%N => "4" | 5%N => "5" | 6%N => "6" | 7%N => "7"
  | 8%N => "8" | 9%N => "9" | 10%N => "A" | 11%N => "B"
  | 12%N => "C" | 13%N => "D" | 14%N => "E" | _ => "F"
  end%char.

(** ["%{:02X}"] of one byte. *)
Definition percent_byte (b : N) : string :=
  String "%" (String (hex_digit (b / 16)) (String (hex_digit (b mod 16)) "")).

(** The characters never quoted: letters, digits and [_.-~]. *)
Definition always_safe (c : ascii) : bool :=
  let n := N_of_ascii c in
  ((65 <=? n) && (n <=? 90) || (97 <=? n) && (n <=? 122)
   || (48 <=? n) && (n <=? 57)
   || (n =? 95) || (n =? 46) || (n =? 45) || (n =? 126))%N.

(** One character of [quote_plus]: a space becomes [+], a safe character
    stays, anything else is the percent-encoding of its UTF-8 bytes. *)
Definition quote_plus_char (c : ascii) : string :=
  let n := N_of_ascii c in
  if (n =? 32)%N then "+"
  else if always_safe c then String c ""
  else if (n <? 128)%N then percent_byte n
  else percent_byte (192 + n / 64) ++ percent_byte (128 + n mod 64).

Fixpoint quote_plus (s : string) : string :=
  match s with
  | EmptyString => ""
  | String c rest => quote_plus_char c ++ quote_plus rest
  end.

(** The values a query dict of [sdk.py] holds. *)
Inductive QueryValue : Type :=
| QInt (z : Z)
| QStr (s : string).

Definition str_of (v : QueryValue) : string :=
  match v with
  | QInt z => str_of_int z
  | QStr s => s
  end.

(** [urlencode(params)] for a dict in insertion order. *)
Definition urlencode (params : list (string * QueryValue)) : string :=
  String.concat "&"
    (map (fun kv => quote_plus (fst kv) ++ "=" ++ quote_plus (str_of (snd kv)))
         params).

End Urllib.

(** ** [json]: the encoder and the decoder of the standard library

    A model of [json.dumps] and [json.loads] on the values above.  The
    client is proved correct for any encoder and decoder (they are fields
    of the environment); this model is the one the worked examples run.
    Floating-point numbers and the escapes [\uXXXX] above code point 255 are
    not covered: the decoder rejects them. *)

Module Json.

(** The double-quote character. *)
Definition dquote : ascii := Eval cbv in ascii_of_N 34.

Definition lower_hex_digit (n : N) : ascii :=
  match n with
  | 0%N => "0" | 1%N => "1" | 2%N => "2" | 3%N => "3"
  | 4%N => "4" | 5%N => "5" | 6%N => "6" | 7%N => "7"
  | 8%N => "8" | 9%N => "9" | 10%N => "a" | 11%N => "b"
  | 12%N => "c" | 13%N => "d" | 14%N => "e" | _ => "f"
  end%char.

(** One character of a string literal under [ensure_ascii=True]. *)
Definition escape_char (c : ascii) : string :=
  let n := N_of_ascii c in
  if (n =? 34)%N then String "\" (String dquote "")
  else if (n =? 92)%N then "\\"
  else if (n =? 10)%N then "\n"
  else if (n =? 13)%N then "\r"
  else if (n =? 9)%N then "\t"
  else if (n =? 8)%N then "\b"
  else if (n =? 12)%N then "\f"
  else if ((32 <=? n) && (n <=? 126))%N then String c ""
  else String "\" (String "u" (String "0" (String "0"
         (String (lower_hex_digit (n / 16))
            (String (lower_hex_digit (n mod 16)) ""))))).

Fixpoint escape (s : string) : string :=
  match s with
  | EmptyString => ""
  | String c rest => escape_char c ++ escape rest
  end.

(** A string literal. *)
Definition quote (s : string) : string :=
  String dquote (escape s ++ String dquote "").

(** [json.dumps(v)] with the default separators.  An instance of a class
    or a type object is not serializable. *)
Fixpoint dumps (v : PyVal) : Outcome string :=
  match v with
  | PyNone => Return "null"
  | PyBool b => Return (if b then "true" else "false")
  | PyInt z => Return (str_of_int z)
  | PyStr s => Return (quote s)
  | PyList xs =>
      let fix items (l : list PyVal) : Outcome (list string) :=
        match l with
        | [] => Return []
        | x :: rest =>
            match dumps x with
            | Raise e => Raise e
            | Return sx =>
                match items rest with
                | Raise e => Raise e
                | Return ss => Return (sx :: ss)
                end
            end
        end in
      match items xs with
      | Raise e => Raise e
      | Return ss => Return ("[" ++ String.concat ", " ss ++ "]")
      end
  | PyDict kv =>
      let fix members (l : list (string * PyVal)) : Outcome (list string) :=
        match l with
        | [] => Return []
        | (k, x) :: rest =>
            match dumps x with
            | Raise e => Raise e
            | Return sx =>
                match members rest with
                | Raise e => Raise e
                | Return ss => Return ((quote k ++ ": " ++ sx) :: ss)
                end
            end
        end in
      match members kv with
      | Raise e => Raise e
      | Return ss => Return ("{" ++ String.concat ", " ss ++ "}")
      end
  | PyInst _ _ => Raise TypeError
  | PyType _ => Raise TypeError
  end.

(** *** Decoding *)

Definition is_ws (c : ascii) : bool :=
  let n := N_of_ascii c in
  ((n =? 32) || (n =? 9) || (n =? 10) || (n =? 13))%N.

Fixpoint skip_ws (s : string) : string :=
  match s with
  | String c rest => if is_ws c then skip_ws rest else s
  | EmptyString => s
  end.

(** [s] without the prefix [p], when it starts with it. *)
Fixpoint strip_prefix (p s : string) : option string :=
  match p, s with
  | EmptyString, _ => Some s
  | String a p', String b s' =>
      if Ascii.eqb a b then strip_prefix p' s' else None
  | String _ _, EmptyString => None
  end.

Definition digit_value (c : ascii) : option Z :=
  let n := N_of_ascii c in
  if ((48 <=? n) && (n <=? 57))%N then Some (Z.of_N n - 48) else None.

Definition hex_value (c : ascii) : option N :=
  let n := N_of_ascii c in
  if ((48 <=? n) && (n <=? 57))%N then Some (n - 48)%N
  else if ((97 <=? n) && (n <=? 102))%N then Some (n - 87)%N
  else if ((65 <=? n) && (n <=? 70))%N then Some (n - 55)%N
  else None.

(** The digits that continue a number whose value so far is [acc]. *)
Fixpoint more_digits (acc : Z) (s : string) : Z * string :=
  match s with
  | String c rest =>
      match digit_value c with
      | Some d => more_digits (10 * acc + d) rest
      | None => (acc, s)
      end
  | EmptyString => (acc, s)
  end.

(** What follows an integer must not turn it into a float. *)
Definition not_float (s : string) : bool :=
  match s with
  | String c _ =>
      let n := N_of_ascii c in
      negb ((n =? 46) || (n =? 101) || (n =? 69))%N
  | EmptyString => true
  end.

(** An unsigned integer: a lone [0], or a non-zero digit and more digits. *)
Definition parse_nat (s : string) : option (Z * string) :=
  match s with
  | String c rest =>
      match digit_value c with
      | Some 0 => if not_float rest then Some (0, rest) else None
      | Some d =>
          let '(z, rest') := more_digits d rest in
          if not_float rest' then Some (z, rest') else None
      | None => None
      end
  | EmptyString => None
  end.

Definition parse_int (s : string) : option (Z * string) :=
  match s with
  | String "-" rest =>
      match parse_nat rest with
      | Some (z, rest') => Some (- z, rest')
      | None => None
      end
  | _ => parse_nat s
  end.

(** The character an escape letter stands for. *)
Definition unescape (c : ascii) : option ascii :=
  let n := N_of_ascii c in
  if (n =? 34)%N then Some c
  else if (n =? 92)%N then Some c
  else if (n =? 47)%N then Some c
  else if (n =? 98)%N then Some (ascii_of_N 8)
  else if (n =? 102)%N then Some (ascii_of_N 12)
  else if (n =? 110)%N then Some (ascii_of_N 10)
  else if (n =? 114)%N then Some (ascii_of_N 13)
  else if (n =? 116)%N then Some (ascii_of_N 9)
  else None.

(** Where the scan of a string literal stands: in plain text, just after
    a backslash, or inside [\uXXXX] with [todo] digits to go. *)
Inductive StrMode : Type :=
| Plain
| Escaped
| Hex (todo : nat) (acc : N).

Definition cons_char (c : ascii) (r : option (string * string))
  : option (string * string) :=
  match r with
  | Some (t, rest) => Some (String c t, rest)
  | None => None
  end.

(** The rest of a string literal, after its opening quote: the text and
    what follows the closing quote. *)
Fixpoint parse_string (m : StrMode) (s : string) : option (string * string) :=
  match s with
  | EmptyString => None
  | String c rest =>
      let n := N_of_ascii c in
      match m with
      | Plain =>
          if (n =? 34)%N then Some ("", rest)
          else if (n =? 92)%N then parse_string Escaped rest
          else if (n <? 32)%N then None
          else cons_char c (parse_string Plain rest)
      | Escaped =>
          if (n =? 117)%N then parse_string (Hex 4 0%N) rest
          else
            match unescape c with
            | Some ch => cons_char ch (parse_string Plain rest)
            | None => None
            end
      | Hex todo acc =>
          match hex_value c with
          | None => None
          | Some h =>
              let acc' := (16 * acc + h)%N in
              match todo with
              | 1%nat =>
                  if (acc' <? 256)%N
                  then cons_char (ascii_of_N acc') (parse_string Plain rest)
                  else None
              | S todo' => parse_string (Hex todo' acc') rest
              | O => None
              end
          end
      end
  end.

(** A value at the head of [s], and the text after it.  [fuel] bounds the
    chain of nested calls; each call reads at least one character, and
    [loads] starts with one more than the length of the text. *)
Fixpoint parse_value (fuel : nat) (s : string) : option (PyVal * string) :=
  match fuel with
  | O => None
  | S fuel' =>
      match s with
      | EmptyString => None
      | String c rest =>
          let n := N_of_ascii c in
          if (n =? 34)%N then
            match parse_string Plain rest with
            | Some (t, rest') => Some (PyStr t, rest')
            | None => None
            end
          else if (n =? 123)%N then
            match skip_ws rest with
            | String "}" rest' => Some (PyDict [], rest')
            | after => parse_members fuel' after []
            end
          else if (n =? 91)%N then
            match skip_ws rest with
            | String "]" rest' => Some (PyList [], rest')
            | after => parse_elements fuel' after []
            end
          else if (n =? 110)%N then
            option_map (pair PyNone) (strip_prefix "null" s)
          else if (n =? 116)%N then
            option_map (pair (PyBool true)) (strip_prefix "true" s)
          else if (n =? 102)%N then
            option_map (pair (PyBool false)) (strip_prefix "false" s)
          else
            match parse_int s with
            | Some (z, rest') => Some (PyInt z, rest')
            | None => None
            end
      end
  end

(** The elements of an array from the next one on; [acc] holds the
    elements read so far. *)
with parse_elements (fuel : nat) (s : string) (acc : list PyVal)
  : option (PyVal * string) :=
  match fuel with
  | O => None
  | S fuel' =>
      match parse_value fuel' s with
      | None => None
      | Some (v, rest) =>
          match skip_ws rest with
          | String "]" rest' => Some (PyList (acc ++ [v]), rest')
          | String "," rest' => parse_elements fuel' (skip_ws rest') (acc ++ [v])
          | _ => None
          end
      end
  end

(** The members of an object from the next one on. *)
with parse_members (fuel : nat) (s : string) (acc : list (string * PyVal))
  : option (PyVal * string) :=
  match fuel with
  | O => None
  | S fuel' =>
      match s with
      | String c rest =>
          if (N_of_ascii c =? 34)%N then
            match parse_string Plain rest with
            | None => None
            | Some (k, rest1) =>
                match skip_ws rest1 with
                | String ":" rest2 =>
                    match parse_value fuel' (skip_ws rest2) with
                    | None => None
                    | Some (v, rest3) =>
                        match skip_ws rest3 with
                        | String "}" rest4 => Some (PyDict (dict_set acc k v), rest4)
                        | String "," rest4 =>
                            parse_members fuel' (skip_ws rest4) (dict_set acc k v)
                        | _ => None
                        end
                    end
                | _ => None
                end
            end
          else None
      | EmptyString => None
      end
  end.

(** [json.loads(s)]: one value, with blanks around it and nothing else. *)
Definition loads (s : string) : option PyVal :=
  match parse_value (S (String.length s)) (skip_ws s) with
  | Some (v, rest) =>
      match skip_ws rest with
      | EmptyString => Some v
      | String _ _ => None
      end
  | None => None
  end.

End Json.

(** ** [api_types]: what [sdk.py] imports from it

    [api_types.py] is not part of the sources at hand, so the tuples of
    allowed values and the class hierarchy are parameters of the model. *)

Module ApiTypes.

Record t : Type := {
  TRANSACTION_TYPES : list string;
  TRANSACTION_STATUS_TYPES : list string;
  TRANSACTION_TRANSFER : string;
  (** whether [DestinationTransferPeerPath] derives from [TransferPeerPath] *)
  destination_derives : bool
}.

Definition class_eqb (c d : PyClass) : bool :=
  match c, d with
  | NoneType, NoneType => true
  | ClsBool, ClsBool => true
  | ClsInt, ClsInt => true
  | ClsStr, ClsStr => true
  | ClsList, ClsList => true
  | ClsDict, ClsDict => true
  | ClsType, ClsType => true
  | TransferPeerPath, TransferPeerPath => true
  | DestinationTransferPeerPath, DestinationTransferPeerPath => true
  | UserClass a, UserClass b => (a =? b)%string
  | _, _ => false
  end.

(** [issubclass(c, d)] *)
Definition issubclass (api : t) (c d : PyClass) : bool :=
  class_eqb c d
  || (class_eqb c DestinationTransferPeerPath && class_eqb d TransferPeerPath
      && destination_derives api).

(** [isinstance(v, classes)] for a tuple of classes of [api_types]: only
    an instance of one of them, or of a class derived from it, passes. *)
Definition isinstance (api : t) (v : PyVal) (classes : list PyClass) : bool :=
  match v with
  | PyInst c _ => existsb (issubclass api c) classes
  | _ => false
  end.

(** An instance for the worked examples: the values the docstrings of
    [create_transaction] (TRANSFER, MINT or BURN, default TRANSFER) and of
    [get_transactions] (the seventeen statuses) list. *)
Definition documented : t := {|
  TRANSACTION_TYPES := ["TRANSFER"; "MINT"; "BURN"];
  TRANSACTION_STATUS_TYPES :=
    ["SUBMITTED"; "QUEUED"; "PENDING_SIGNATURE"; "PENDING_AUTHORIZATION";
     "PENDING_3RD_PARTY_MANUAL_APPROVAL"; "PENDING_3RD_PARTY"; "BROADCASTING";
     "CONFIRMING"; "COMPLETED"; "PENDING_AML_CHECKUP"; "PARTIALLY_COMPLETED";
     "CANCELLING"; "CANCELLED"; "REJECTED"; "FAILED"; "TIMEOUT"; "BLOCKED"];
  TRANSACTION_TRANSFER := "TRANSFER";
  destination_derives := true
|}.

End ApiTypes.

(** ** The world outside [sdk.py] *)

Inductive Method : Type := GET | POST | PUT | DELETE.

(** What a transport call is given to send: nothing, an object for the
    transport to serialize ([json=]), or text already serialized ([data=]). *)
Inductive Payload : Type :=
| NoPayload
| JsonKw (body : PyVal)
| DataKw (data : string).

Record Request : Type := {
  method : Method;
  url : string;
  headers : list (string * string);
  payload : Payload
}.

Record Response : Type := {
  status_code : Z;
  text : string
}.

(** What [SdkTokenProvider(private_key, api_key)] holds: the two arguments
    of its constructor. *)
Record SdkTokenProvider : Type := {
  provider_private_key : string;
  provider_api_key : string
}.

(** The external calls, with their arguments and what they answered. *)
Inductive Event : Type :=
| SignJwt (path : string) (body : option PyVal) (result : Outcome string)
| Transport (req : Request) (result : Outcome Response).

(** The collaborators of the client.  The signer and the transport answer
    from the history of calls, so they may answer the same question
    differently each time; either may raise. *)
Record Env : Type := {
  env_api : ApiTypes.t;
  env_sign_jwt : SdkTokenProvider -> list Event -> string -> option PyVal -> Outcome string;
  env_requests : list Event -> Request -> Outcome Response;
  env_json_dumps : PyVal -> Outcome string;
  env_json_loads : string -> option PyVal
}.

(** ** The client object and the monad of its methods *)

Record FireblocksSDK : Type := {
  private_key : string;
  api_key : string;
  base_url : string;
  token_provider : SdkTokenProvider
}.

Definition default_api_base_url : string := "https://api.fireblocks.io".

Definition __init__ (private_key api_key api_base_url : string) : FireblocksSDK :=
  {| private_key := private_key;
     api_key := api_key;
     base_url := api_base_url;
     token_provider := {| provider_private_key := private_key;
                          provider_api_key := api_key |} |}.

(** The client object and the log of external calls. *)
Record State : Type := {
  self : FireblocksSDK;
  log : list Event
}.

Definition M (A : Type) : Type := State -> Outcome A * State.

Definition ret {A : Type} (a : A) : M A := fun st => (Return a, st).

Definition raise {A : Type} (e : Exn) : M A := fun st => (Raise e, st).

Definition bind {A B : Type} (m : M A) (k : A -> M B) : M B :=
  fun st =>
    match m st with
    | (Return a, st') => k a st'
    | (Raise e, st') => (Raise e, st')
    end.

Definition lift {A : Type} (o : Outcome A) : M A := fun st => (o, st).

Definition get_self : M FireblocksSDK := fun st => (Return (self st), st).

Declare Scope py_scope.
Delimit Scope py_scope with py.
Notation "x <- m ;; k" := (bind m (fun x => k))
  (at level 61, m at next level, right associativity) : py_scope.

(** ** The methods of [FireblocksSDK] *)

Section Client.

Variable env : Env.

Local Open Scope py_scope.

(** [self.token_provider.sign_jwt(path)] and
    [self.token_provider.sign_jwt(path, body)] *)
Definition sign_jwt (path : string) (body : option PyVal) : M string :=
  fun st =>
    let r := env_sign_jwt env (token_provider (self st)) (log st) path body in
    (r, {| self := self st; log := log st ++ [SignJwt path body r] |}).

(** [requests.get], [requests.post], [requests.put], [requests.delete] *)
Definition requests (req : Request) : M Response :=
  fun st =>
    let r := env_requests env (log st) req in
    (r, {| self := self st; log := log st ++ [Transport req r] |}).

(** [json.dumps(body)] *)
Definition json_dumps (body : PyVal) : M string := lift (env_json_dumps env body).

(** [response.json()] *)
Definition response_json (response : Response) : M PyVal :=
  match env_json_loads env (text response) with
  | Some v => ret v
  | None => raise ValueError
  end.

Definition _get_request (path : string) : M PyVal :=
  me <- get_self ;;
  token <- sign_jwt path None ;;
  let headers := [("X-API-Key", api_key me);
                  ("Authorization", "Bearer " ++ token)] in
  response <- requests {| method := GET; url := base_url me ++ path;
                          headers := headers; payload := NoPayload |} ;;
  if 300 <=? status_code response
  then raise (FireblocksApiException
                ("Got an error from fireblocks server: " ++ text response))
  else response_json response.

Definition _delete_request (path : string) : M PyVal :=
  me <- get_self ;;
  token <- sign_jwt path None ;;
  let headers := [("X-API-Key", api_key me);
                  ("Authorization", "Bearer " ++ token)] in
  response <- requests {| method := DELETE; url := base_url me ++ path;
                          headers := headers; payload := NoPayload |} ;;
  if 300 <=? status_code response
  then raise (FireblocksApiException
                ("Got an error from fireblocks server: " ++ text response))
  else response_json response.

(** The default [body={}] of [_post_request] and [_put_request]. *)
Definition empty_body : PyVal := PyDict [].

Definition _post_request (path : string) (body : PyVal) : M PyVal :=
  me <- get_self ;;
  token <- sign_jwt path (Some body) ;;
  let headers := [("X-API-Key", api_key me);
                  ("Authorization", "Bearer " ++ token)] in
  response <- requests {| method := POST; url := base_url me ++ path;
                          headers := headers; payload := JsonKw body |} ;;
  if 300 <=? status_code response
  then raise (FireblocksApiException
                ("Got an error from fireblocks server: " ++ text response))
  else response_json response.

Definition _put_request (path : string) (body : PyVal) : M PyVal :=
  me <- get_self ;;
  token <- sign_jwt path (Some body) ;;
  let headers := [("X-API-Key", api_key me);
                  ("Authorization", "Bearer " ++ token);
                  ("Content-Type", "application/json")] in
  data <- json_dumps body ;;
  response <- requests {| method := PUT; url := base_url me ++ path;
                          headers := headers; payload := DataKw data |} ;;
  if 300 <=? status_code response
  then raise (FireblocksApiException
                ("Got an error from fireblocks server: " ++ text response))
  else response_json response.

Definition get_supported_assets : M PyVal :=
  _get_request "/v1/supported_assets".

Definition get_vault_accounts : M PyVal :=
  _get_request "/v1/vault/accounts".

Definition get_vault_account (vault_account_id : string) : M PyVal :=
  _get_request ("/v1/vault/accounts/" ++ vault_account_id).

Definition get_vault_account_by_id (vault_account_id : string) : M PyVal :=
  _get_request ("/v1/vault/accounts/" ++ vault_account_id).

Definition get_vault_account_asset (vault_account_id asset_id : string) : M PyVal :=
  _get_request ("/v1/vault/accounts/" ++ vault_account_id ++ "/" ++ asset_id).

Definition get_deposit_addresses (vault_account_id asset_id : string) : M PyVal :=
  _get_request ("/v1/vault/accounts/" ++ vault_account_id ++ "/" ++ asset_id
                ++ "/addresses").

Definition generate_new_address (vault_account_id asset_id : string)
    (description : option string) : M PyVal :=
  _post_request ("/v1/vault/accounts/" ++ vault_account_id ++ "/" ++ asset_id
                 ++ "/addresses")
                (PyDict [("description", PyStr (or_empty description))]).

Definition set_address_description (vault_account_id asset_id address : string)
    (tag description : option string) : M PyVal :=
  _put_request ("/v1/vault/accounts/" ++ vault_account_id ++ "/" ++ asset_id
                ++ "/addresses/" ++ address ++ ":" ++ or_empty tag)
               (PyDict [("description", PyStr (or_empty description))]).

Definition get_network_connections : M PyVal :=
  _get_request "/v1/network_connections".

Definition get_network_connection_by_id (connection_id : string) : M PyVal :=
  _get_request ("/v1/network_connections/" ++ connection_id).

Definition get_exchange_accounts : M PyVal :=
  _get_request "/v1/exchange_accounts".

Definition transfer_to_subaccount (exchange_account_id : string)
    (subaccount_id : PyVal) (asset_id : string) (amount : PyVal) : M PyVal :=
  let body := PyDict [("subaccountId", subaccount_id); ("amount", amount)] in
  _post_request ("/v1/exchange_accounts/" ++ exchange_account_id ++ "/" ++ asset_id
                 ++ "/transfer_to_subaccount") body.

Definition transfer_from_subaccount (exchange_account_id : string)
    (subaccount_id : PyVal) (asset_id : string) (amount : PyVal) : M PyVal :=
  let body := PyDict [("subaccountId", subaccount_id); ("amount", amount)] in
  _post_request ("/v1/exchange_accounts/" ++ exchange_account_id ++ "/" ++ asset_id
                 ++ "/transfer_from_subaccount") body.

Definition get_fiat_accounts : M PyVal :=
  _get_request "/v1/fiat_accounts".

Definition get_fiat_account_by_id (account_id : string) : M PyVal :=
  _get_request ("/v1/fiat_accounts/" ++ account_id).

Definition redeem_to_linked_dda (account_id : string) (amount : PyVal) : M PyVal :=
  let body := PyDict [("amount", amount)] in
  _post_request ("/v1/fiat_accounts/" ++ account_id ++ "/redeem_to_linked_dda") body.

Definition deposit_from_linked_dda (account_id : string) (amount : PyVal) : M PyVal :=
  let body := PyDict [("amount", amount)] in
  _post_request ("/v1/fiat_accounts/" ++ account_id ++ "/deposit_from_linked_dda") body.

(** [if o: params[key] = o] for an optional [int]. *)
Definition set_if_int (params : list (string * Urllib.QueryValue))
    (key : string) (o : option Z) : list (string * Urllib.QueryValue) :=
  match o with
  | Some z => if negb (z =? 0) then dict_set params key (Urllib.QInt z) else params
  | None => params
  end.

(** [if o: params[key] = o] for an optional [str]. *)
Definition set_if_str (params : list (string * Urllib.QueryValue))
    (key : string) (o : option string) : list (string * Urllib.QueryValue) :=
  match o with
  | Some s => if str_truthy s then dict_set params key (Urllib.QStr s) else params
  | None => params
  end.

(** The query dict [get_transactions] fills, key by key. *)
Definition transactions_params (before after : option Z) (status : option string)
    (limit : option Z) (order_by : option string)
  : list (string * Urllib.QueryValue) :=
  let params := [] in
  let params := set_if_int params "before" before in
  let params := set_if_int params "after" after in
  let params := set_if_str params "status" status in
  let params := set_if_str params "orderBy" order_by in
  let params := set_if_int params "limit" limit in
  params.

(** [if status and status not in TRANSACTION_STATUS_TYPES] *)
Definition status_refused (status : option string) : bool :=
  match status with
  | Some s => str_truthy s
              && negb (str_in s (ApiTypes.TRANSACTION_STATUS_TYPES (env_api env)))
  | None => false
  end.

Definition get_transactions (before after : option Z) (status : option string)
    (limit : option Z) (order_by : option string) : M PyVal :=
  let path := "/v1/transactions" in
  if status_refused status then
    msg <- lift (str_add "Got invalid transaction type: " (of_opt_str status)) ;;
    raise (FireblocksApiException msg)
  else
    let params := transactions_params before after status limit order_by in
    let path := match params with
                | [] => path
                | _ :: _ => path ++ "?" ++ Urllib.urlencode params
                end in
    _get_request path.

Definition get_internal_wallets : M PyVal :=
  _get_request "/v1/internal_wallets".

Definition get_external_wallets : M PyVal :=
  _get_request "/v1/external_wallets".

Definition get_transaction_by_id (txid : string) : M PyVal :=
  _get_request ("/v1/transactions/" ++ txid).

Definition cancel_transaction_by_id (txid : string) : M PyVal :=
  _post_request ("/v1/transactions/" ++ txid ++ "/cancel") empty_body.

Definition create_vault_account (name hiddenOnUI : PyVal) : M PyVal :=
  let body := PyDict [("name", name); ("hiddenOnUI", hiddenOnUI)] in
  _post_request "/v1/vault/accounts" body.

Definition hide_vault_account (vault_account_id : string) : M PyVal :=
  _post_request ("/v1/vault/accounts/" ++ vault_account_id ++ "/hide") empty_body.

Definition unhide_vault_account (vault_account_id : string) : M PyVal :=
  _post_request ("/v1/vault/accounts/" ++ vault_account_id ++ "/unhide") empty_body.

Definition create_vault_asset (vault_account_id asset_id : string) : M PyVal :=
  _post_request ("/v1/vault/accounts/" ++ vault_account_id ++ "/" ++ asset_id)
                empty_body.

Definition create_external_wallet (name : PyVal) : M PyVal :=
  _post_request "/v1/external_wallets" (PyDict [("name", name)]).

Definition create_internal_wallet (name : PyVal) : M PyVal :=
  _post_request "/v1/internal_wallets" (PyDict [("name", name)]).

(** The body of the two [create_*_wallet_asset] methods. *)
Definition wallet_asset_body (address tag : PyVal) : PyVal :=
  let body := [("address", address)] in
  let body := if truthy tag then dict_set body "tag" tag else body in
  PyDict body.

Definition create_external_wallet_asset (wallet_id asset_id : string)
    (address tag : PyVal) : M PyVal :=
  _post_request ("/v1/external_wallets/" ++ wallet_id ++ "/" ++ asset_id)
                (wallet_asset_body address tag).

Definition create_internal_wallet_asset (wallet_id asset_id : string)
    (address tag : PyVal) : M PyVal :=
  _post_request ("/v1/internal_wallets/" ++ wallet_id ++ "/" ++ asset_id)
                (wallet_asset_body address tag).

Definition source_message : string :=
  "Expected transaction source of type TransferPeerPath, but got type: ".

Definition destination_message : string :=
  "Expected transaction destination of type DestinationTransferPeerPath or TransferPeerPath, but got type: ".

Definition create_transaction (asset_id amount source destination fee gas_price
    wait_for_status : PyVal) (tx_type : string) : M PyVal :=
  if negb (str_in tx_type (ApiTypes.TRANSACTION_TYPES (env_api env))) then
    msg <- lift (str_add "Got invalid transaction type: " (PyStr tx_type)) ;;
    raise (FireblocksApiException msg)
  else if negb (ApiTypes.isinstance (env_api env) source [TransferPeerPath]) then
    msg <- lift (str_add source_message (type_ source)) ;;
    raise (FireblocksApiException msg)
  else
    source_dict <- lift (dunder_dict source) ;;
    let body := [("assetId", asset_id);
                 ("amount", amount);
                 ("source", source_dict);
                 ("waitForStatus", wait_for_status);
                 ("operation", PyStr tx_type)] in
    let body := if truthy fee then dict_set body "fee" fee else body in
    let body := if truthy gas_price then dict_set body "gasPrice" gas_price else body in
    body <- (if truthy destination then
               if negb (ApiTypes.isinstance (env_api env) destination
                          [TransferPeerPath; DestinationTransferPeerPath]) then
                 msg <- lift (str_add destination_message (type_ destination)) ;;
                 raise (FireblocksApiException msg)
               else
                 destination_dict <- lift (dunder_dict destination) ;;
                 ret (dict_set body "destination" destination_dict)
             else ret body) ;;
    _post_request "/v1/transactions" (PyDict body).

Definition delete_internal_wallet (wallet_id : string) : M PyVal :=
  _delete_request ("/v1/internal_wallets/" ++ wallet_id).

Definition delete_external_wallet (wallet_id : string) : M PyVal :=
  _delete_request ("/v1/external_wallets/" ++ wallet_id).

Definition delete_internal_wallet_asset (wallet_id asset_id : string) : M PyVal :=
  _delete_request ("/v1/internal_wallets/" ++ wallet_id ++ "/" ++ asset_id).

Definition delete_external_wallet_asset (wallet_id asset_id : string) : M PyVal :=
  _delete_request ("/v1/external_wallets/" ++ wallet_id ++ "/" ++ asset_id).

End Client.

(** ** The public operations, as one type

    A [Call] is one method call with its arguments; [call] runs it.  The
    properties that hold of every operation quantify over [Call]. *)

Inductive Call : Type :=
| GetSupportedAssets
| GetVaultAccounts
| GetVaultAccount (vault_account_id : string)
| GetVaultAccountById (vault_account_id : string)
| GetVaultAccountAsset (vault_account_id asset_id : string)
| GetDepositAddresses (vault_account_id asset_id : string)
| GenerateNewAddress (vault_account_id asset_id : string) (description : option string)
| SetAddressDescription (vault_account_id asset_id address : string)
    (tag description : option string)
| GetNetworkConnections
| GetNetworkConnectionById (connection_id : string)
| GetExchangeAccounts
| TransferToSubaccount (exchange_account_id : string) (subaccount_id : PyVal)
    (asset_id : string) (amount : PyVal)
| TransferFromSubaccount (exchange_account_id : string) (subaccount_id : PyVal)
    (asset_id : string) (amount : PyVal)
| GetFiatAccounts
| GetFiatAccountById (account_id : string)
| RedeemToLinkedDda (account_id : string) (amount : PyVal)
| DepositFromLinkedDda (account_id : string) (amount : PyVal)
| GetTransactions (before after : option Z) (status : option string)
    (limit : option Z) (order_by : option string)
| GetInternalWallets
| GetExternalWallets
| GetTransactionById (txid : string)
| CancelTransactionById (txid : string)
| CreateVaultAccount (name hiddenOnUI : PyVal)
| HideVaultAccount (vault_account_id : string)
| UnhideVaultAccount (vault_account_id : string)
| CreateVaultAsset (vault_account_id asset_id : string)
| CreateExternalWallet (name : PyVal)
| CreateInternalWallet (name : PyVal)
| CreateExternalWalletAsset (wallet_id asset_id : string) (address tag : PyVal)
| CreateInternalWalletAsset (wallet_id asset_id : string) (address tag : PyVal)
| CreateTransaction (asset_id amount source destination fee gas_price
    wait_for_status : PyVal) (tx_type : string)
| DeleteInternalWallet (wallet_id : string)
| DeleteExternalWallet (wallet_id : string)
| DeleteInternalWalletAsset (wallet_id asset_id : string)
| DeleteExternalWalletAsset (wallet_id asset_id : string).

Definition call (env : Env) (c : Call) : M PyVal :=
  match c with
  | GetSupportedAssets => get_supported_assets env
  | GetVaultAccounts => get_vault_accounts env
  | GetVaultAccount v => get_vault_account env v
  | GetVaultAccountById v => get_vault_account_by_id env v
  | GetVaultAccountAsset v a => get_vault_account_asset env v a
  | GetDepositAddresses v a => get_deposit_addresses env v a
  | GenerateNewAddress v a d => generate_new_address env v a d
  | SetAddressDescription v a addr t d => set_address_description env v a addr t d
  | GetNetworkConnections => get_network_connections env
  | GetNetworkConnectionById c => get_network_connection_by_id env c
  | GetExchangeAccounts => get_exchange_accounts env
  | TransferToSubaccount e s a amt => transfer_to_subaccount env e s a amt
  | TransferFromSubaccount e s a amt => transfer_from_subaccount env e s a amt
  | GetFiatAccounts => get_fiat_accounts env
  | GetFiatAccountById a => get_fiat_account_by_id env a
  | RedeemToLinkedDda a amt => redeem_to_linked_dda env a amt
  | DepositFromLinkedDda a amt => deposit_from_linked_dda env a amt
  | GetTransactions b a s l o => get_transactions env b a s l o
  | GetInternalWallets => get_internal_wallets env
  | GetExternalWallets => get_external_wallets env
  | GetTransactionById t => get_transaction_by_id env t
  | CancelTransactionById t => cancel_transaction_by_id env t
  | CreateVaultAccount n h => create_vault_account env n h
  | HideVaultAccount v => hide_vault_account env v
  | UnhideVaultAccount v => unhide_vault_account env v
  | CreateVaultAsset v a => create_vault_asset env v a
  | CreateExternalWallet n => create_external_wallet env n
  | CreateInternalWallet n => create_internal_wallet env n
  | CreateExternalWalletAsset w a addr t => create_external_wallet_asset env w a addr t
  | CreateInternalWalletAsset w a addr t => create_internal_wallet_asset env w a addr t
  | CreateTransaction a amt s d f g w t => create_transaction env a amt s d f g w t
  | DeleteInternalWallet w => delete_internal_wallet env w
  | DeleteExternalWallet w => delete_external_wallet env w
  | DeleteInternalWalletAsset w a => delete_internal_wallet_asset env w a
  | DeleteExternalWalletAsset w a => delete_external_wallet_asset env w a
  end.

(** A program that uses the client: one call after another, each
    exception caught by the caller.  The state after the last call. *)
Fixpoint session (env : Env) (calls : list Call) (st : State) : State :=
  match calls with
  | [] => st
  | c :: rest => session env rest (snd (call env c st))
  end.

(** The client as constructed, before any call. *)
Definition start (private_key api_key api_base_url : string) : State :=
  {| self := __init__ private_key api_key api_base_url; log := [] |}.

(** What an operation added to the log. *)
Definition new_events (env : Env) (c : Call) (st : State) : list Event :=
  skipn (length (log st)) (log (snd (call env c st))).

(** ** Reading a log *)

(** [req.headers[name]] *)
Definition header (name : string) (req : Request) : option string :=
  option_map snd (find (fun kv => (fst kv =? name)%string) (headers req)).

(** The headers the helper for method [m] builds. *)
Definition headers_for (m : Method) (me : FireblocksSDK) (token : string)
  : list (string * string) :=
  match m with
  | PUT => [("X-API-Key", api_key me); ("Authorization", "Bearer " ++ token);
            ("Content-Type", "application/json")]
  | _ => [("X-API-Key", api_key me); ("Authorization", "Bearer " ++ token)]
  end.

(** What the helper for method [m] hands to the transport when it signed
    [body]: nothing for GET and DELETE, the object itself for POST, its
    [json.dumps] text for PUT. *)
Definition payload_for (env : Env) (m : Method) (body : option PyVal)
  : option Payload :=
  match m, body with
  | GET, None => Some NoPayload
  | DELETE, None => Some NoPayload
  | POST, Some b => Some (JsonKw b)
  | PUT, Some b =>
      match env_json_dumps env b with
      | Return data => Some (DataKw data)
      | Raise _ => None
      end
  | _, _ => None
  end.

Definition error_prefix : string := "Got an error from fireblocks server: ".

(** The last four lines of each request helper, as a method of their own. *)
Definition check_response (env : Env) (response : Response) : M PyVal :=
  if 300 <=? status_code response
  then raise (FireblocksApiException (error_prefix ++ text response))
  else response_json env response.

(** What the helpers make of a response. *)
Definition reply (env : Env) (response : Response) : Outcome PyVal :=
  if 300 <=? status_code response
  then Raise (FireblocksApiException (error_prefix ++ text response))
  else match env_json_loads env (text response) with
       | Some v => Return v
       | None => Raise ValueError
       end.

(** The ways one operation can go: the events it adds to a log that held
    [before], and its outcome. *)
Inductive Exchange (env : Env) (me : FireblocksSDK) (before : list Event)
  : list Event -> Outcome PyVal -> Prop :=
| refused (e : Exn) :
    Exchange env me before [] (Raise e)
| signer_raised (path : string) (body : option PyVal) (e : Exn) :
    env_sign_jwt env (token_provider me) before path body = Raise e ->
    Exchange env me before [SignJwt path body (Raise e)] (Raise e)
| dumps_raised (path : string) (body : PyVal) (token : string) (e : Exn) :
    env_sign_jwt env (token_provider me) before path (Some body) = Return token ->
    env_json_dumps env body = Raise e ->
    Exchange env me before [SignJwt path (Some body) (Return token)] (Raise e)
| sent (m : Method) (path : string) (body : option PyVal) (token : string)
       (p : Payload) (req : Request) (result : Outcome Response) :
    env_sign_jwt env (token_provider me) before path body = Return token ->
    payload_for env m body = Some p ->
    req = {| method := m; url := base_url me ++ path;
             headers := headers_for m me token; payload := p |} ->
    result = env_requests env (before ++ [SignJwt path body (Return token)]) req ->
    Exchange env me before
      [SignJwt path body (Return token); Transport req result]
      match result with
      | Return response => reply env response
      | Raise e => Raise e
      end.

(** The last event of a log, when it is a transport call that returned. *)
Definition response_of (events : list Event) : option Response :=
  match last events (SignJwt "" None (Raise ValueError)) with
  | Transport _ (Return response) => Some response
  | _ => None
  end.

(** The number of transport calls in a log. *)
Definition transport_calls (events : list Event) : nat :=
  length (filter (fun ev => match ev with Transport _ _ => true | _ => false end)
                 events).

(** ** A worked environment

    A signer that numbers its tokens by the length of the history, the
    library's JSON encoder and decoder, and a transport stub that answers
    every request with the same response. *)

Module Example.

Definition signer (_ : SdkTokenProvider) (history : list Event)
    (_ : string) (_ : option PyVal) : Outcome string :=
  Return ("token" ++ str_of_int (Z.of_nat (length history))).

Definition stub (response : Response) : Env :=
  {| env_api := ApiTypes.documented;
     env_sign_jwt := signer;
     env_requests := fun _ _ => Return response;
     env_json_dumps := Json.dumps;
     env_json_loads := Json.loads |}.

Definition not_found : Response :=
  {| status_code := 404; text := "not found" |}.

(** The text [{"id":"abc"}]. *)
Definition id_abc : string :=
  Eval cbv in "{" ++ Json.quote "id" ++ ":" ++ Json.quote "abc" ++ "}".

Definition ok : Response := {| status_code := 200; text := id_abc |}.

Definition client : State := start "PEM" "my-api-key" default_api_base_url.

(** A vault account as a transfer source. *)
Definition vault : PyVal :=
  PyInst TransferPeerPath [("type", PyStr "VAULT_ACCOUNT"); ("id", PyStr "0")].

End Example.

(** ** The token signer

    Modelled from the spec: [sdk_token_provider.py], which defines
    [SdkTokenProvider.sign_jwt], is not among the sources.  The spec's
    section 4.1 gives the algorithm of [sign]: hash the canonical JSON of
    the body (or of the empty object), build the claim set from the API key,
    a fresh nonce, the current time, the time plus the validity window, the
    path and the hash, and sign it with the private key.  The clock, the
    randomness source, the digest, the serializer and the signature are the
    spec's fixed configuration: they are the fields of [Sources]. *)

Module TokenSigner.

Record ClaimSet : Type := {
  subject : string;
  nonce : N;
  issued_at : Z;
  expiry : Z;
  uri : string;
  body_hash : string
}.

(** The fixed validity window, in seconds (the spec's example value). *)
Definition validity_window : Z := 55.

Record Sources : Type := {
  now : Z;
  random : N;
  digest : string -> string;
  canonical_json : PyVal -> Outcome string;
  signature : string -> ClaimSet -> Outcome string
}.

(** Modelled from the spec: steps 1 and 2 of [sign] in section 4.1, the
    claim set of a request.  An absent body is hashed as the empty object. *)
Definition claims (provider : SdkTokenProvider) (src : Sources)
    (path : string) (body : option PyVal) : Outcome ClaimSet :=
  let claim_set := fun h =>
    {| subject := provider_api_key provider;
       nonce := random src;
       issued_at := now src;
       expiry := now src + validity_window;
       uri := path;
       body_hash := h |} in
  match canonical_json src (match body with Some b => b | None => PyDict [] end) with
  | Return text => Return (claim_set (digest src text))
  | Raise e => Raise e
  end.

(** Modelled from the spec: [sign(path, body)] of section 4.1, the absent
    [SdkTokenProvider.sign_jwt].  Steps 3 to 5 are the [signature] of the
    sources; the result is the token with the claim set it carries. *)
Definition sign (provider : SdkTokenProvider) (src : Sources)
    (path : string) (body : option PyVal) : Outcome (ClaimSet * string) :=
  match claims provider src path body with
  | Return cs =>
      match signature src (provider_private_key provider) cs with
      | Return token => Return (cs, token)
      | Raise e => Raise e
      end
  | Raise e => Raise e
  end.

(** Sources for a worked example: a fixed clock and nonce, and stand-ins
    for the digest and the signature. *)
Definition example_sources : Sources :=
  {| now := 1600000000;
     random := 42;
     digest := fun text => "sha256:" ++ text;
     canonical_json := Json.dumps;
     signature := fun key cs => Return ("signed:" ++ uri cs) |}.

End TokenSigner.

(** A method runs as the client is meant to: it leaves the client object
    alone, and what it adds to the log and returns is an [Exchange]. *)
Definition Runs (env : Env) (m : M PyVal) : Prop :=
  forall st, exists events,
    snd (m st) = {| self := self st; log := log st ++ events |}
    /\ Exchange env (self st) (log st) events (fst (m st)).

(** ** The spec's sentences that the code does not bear out, as written

    Each is stated here as the spec has it, to be refuted on a concrete run
    and replaced by what the code does. *)

(** "The body object passed to [sign_jwt] is the very same object handed to
    the transport for serialization", of the events of one POST or PUT
    operation. *)
Definition same_object_handed (events : list Event) : Prop :=
  forall req result,
    In (Transport req result) events ->
    method req = POST \/ method req = PUT ->
    exists path body token,
      In (SignJwt path (Some body) (Return token)) events
      /\ payload req = JsonKw body.


(** "Every call to [create_transaction] whose source is not an instance of
    [TransferPeerPath] fails with a [TypeError] before any request is
    sent." *)
Definition type_error_for_source (env : Env) (st : State)
    (source : PyVal) (tx_type : string) : Prop :=
  ApiTypes.isinstance (env_api env) source [TransferPeerPath] = false ->
  forall asset_id amount destination fee gas_price wait_for_status,
    create_transaction env asset_id amount source destination fee gas_price
      wait_for_status tx_type st
    = (Raise TypeError, st).

(** "The same holds for a destination of a disallowed type." *)
Definition type_error_for_destination (env : Env) (st : State)
    (source destination : PyVal) (tx_type : string) : Prop :=
  destination <> PyNone ->
  ApiTypes.isinstance (env_api env) destination
    [TransferPeerPath; DestinationTransferPeerPath] = false ->
  forall asset_id amount fee gas_price wait_for_status,
    create_transaction env asset_id amount source destination fee gas_price
      wait_for_status tx_type st
    = (Raise TypeError, st).

(** One operation of each method, for the worked examples. *)
Definition one_of_each : list Call :=
  [GetVaultAccounts;
   CreateVaultAccount (PyStr "Main") (PyBool false);
   SetAddressDescription "0" "BTC" "bc1q" None (Some "cold storage");
   DeleteInternalWallet "w1"].

(** A run of two calls on the worked client, the request of the second and
    the log up to it. *)
Definition two_calls : list Call :=
  [GetVaultAccounts; CreateExternalWallet (PyStr "Exchange")].

Definition wallet_request : Request :=
  {| method := POST;
     url := "https://api.fireblocks.io/v1/external_wallets";
     headers := [("X-API-Key", "my-api-key"); ("Authorization", "Bearer token2")];
     payload := JsonKw (PyDict [("name", PyStr "Exchange")]) |}.

Definition before_wallet_request : list Event :=
  [SignJwt "/v1/vault/accounts" None (Return "token0");
   Transport {| method := GET;
                url := "https://api.fireblocks.io/v1/vault/accounts";
                headers := [("X-API-Key", "my-api-key");
                            ("Authorization", "Bearer token0")];
                payload := NoPayload |}
             (Return Example.ok);
   SignJwt "/v1/external_wallets" (Some (PyDict [("name", PyStr "Exchange")]))
     (Return "token2")].

(** ** Plans: what an operation asks of the request helpers

    Every public method ends in one call of a request helper, or raises
    before it gets there.  A [Plan] names that end; [carry_out] is what the
    end does to the log and what it returns. *)

Inductive Plan : Type :=
| Refuse (e : Exn)
| Get (path : string)
| Delete (path : string)
| Post (path : string) (body : PyVal)
| Put (path : string) (body : PyVal).

Definition perform (env : Env) (p : Plan) : M PyVal :=
  match p with
  | Refuse e => raise e
  | Get path => _get_request env path
  | Delete path => _delete_request env path
  | Post path body => _post_request env path body
  | Put path body => _put_request env path body
  end.

Definition plan_method (p : Plan) : option Method :=
  match p with
  | Refuse _ => None
  | Get _ => Some GET
  | Delete _ => Some DELETE
  | Post _ _ => Some POST
  | Put _ _ => Some PUT
  end.

Definition plan_path (p : Plan) : option string :=
  match p with
  | Refuse _ => None
  | Get path | Delete path | Post path _ | Put path _ => Some path
  end.

(** The body a plan has signed. *)
Definition plan_body (p : Plan) : option PyVal :=
  match p with
  | Refuse _ | Get _ | Delete _ => None
  | Post _ body | Put _ body => Some body
  end.

(** A request helper, from the signing on: the events it logs after
    [history] and its outcome.  [payload] is what the helper would hand to
    the transport, or the exception building it raises. *)
Definition transmit (env : Env) (me : FireblocksSDK) (history : list Event)
    (m : Method) (path : string) (body : option PyVal) (payload : Outcome Payload)
  : list Event * Outcome PyVal :=
  let signed := env_sign_jwt env (token_provider me) history path body in
  match signed with
  | Raise e => ([SignJwt path body signed], Raise e)
  | Return token =>
      match payload with
      | Raise e => ([SignJwt path body signed], Raise e)
      | Return p =>
          let req := {| method := m; url := base_url me ++ path;
                        headers := headers_for m me token; payload := p |} in
          let result := env_requests env (history ++ [SignJwt path body signed]) req in
          ([SignJwt path body signed; Transport req result],
           match result with
           | Return response => reply env response
           | Raise e => Raise e
           end)
      end
  end.

Definition carry_out (env : Env) (me : FireblocksSDK) (history : list Event)
    (p : Plan) : list Event * Outcome PyVal :=
  match p with
  | Refuse e => ([], Raise e)
  | Get path => transmit env me history GET path None (Return NoPayload)
  | Delete path => transmit env me history DELETE path None (Return NoPayload)
  | Post path body =>
      transmit env me history POST path (Some body) (Return (JsonKw body))
  | Put path body =>
      transmit env me history PUT path (Some body)
        match env_json_dumps env body with
        | Return data => Return (DataKw data)
        | Raise e => Raise e
        end
  end.

(** ** Tables and measures the properties are stated with *)

(** The HTTP method behind each operation. *)
Definition method_of (c : Call) : Method :=
  match c with
  | GenerateNewAddress _ _ _ | TransferToSubaccount _ _ _ _
  | TransferFromSubaccount _ _ _ _ | RedeemToLinkedDda _ _
  | DepositFromLinkedDda _ _ | CancelTransactionById _ | CreateVaultAccount _ _
  | HideVaultAccount _ | UnhideVaultAccount _ | CreateVaultAsset _ _
  | CreateExternalWallet _ | CreateInternalWallet _
  | CreateExternalWalletAsset _ _ _ _ | CreateInternalWalletAsset _ _ _ _
  | CreateTransaction _ _ _ _ _ _ _ _ => POST
  | SetAddressDescription _ _ _ _ _ => PUT
  | DeleteInternalWallet _ | DeleteExternalWallet _
  | DeleteInternalWalletAsset _ _ | DeleteExternalWalletAsset _ _ => DELETE
  | _ => GET
  end.

(** The argument checks of the client: the status filter of
    [get_transactions], and the type, source and destination of
    [create_transaction].  No other method looks at its arguments. *)
Definition refuses (env : Env) (c : Call) : bool :=
  match c with
  | GetTransactions _ _ status _ _ => status_refused env status
  | CreateTransaction _ _ source destination _ _ _ tx_type =>
      negb (str_in tx_type (ApiTypes.TRANSACTION_TYPES (env_api env)))
      || negb (ApiTypes.isinstance (env_api env) source [TransferPeerPath])
      || (truthy destination
          && negb (ApiTypes.isinstance (env_api env) destination
                     [TransferPeerPath; DestinationTransferPeerPath]))
  | _ => false
  end.

(** The number of calls of the signer in a log. *)
Definition sign_calls (events : list Event) : nat :=
  length (filter (fun ev => match ev with SignJwt _ _ _ => true | _ => false end)
                 events).

(** [d.get(k)] on a dict in insertion order. *)
Definition dict_get {V : Type} (d : list (string * V)) (k : string) : option V :=
  option_map snd (find (fun kv => (fst kv =? k)%string) d).




(** Collaborators that answer without looking at the history of calls. *)
Definition history_free (env : Env) : Prop :=
  (forall provider h1 h2 path body,
      env_sign_jwt env provider h1 path body = env_sign_jwt env provider h2 path body)
  /\ (forall h1 h2 req, env_requests env h1 req = env_requests env h2 req).

(** A worked environment of that kind: the same token every time. *)
Definition plain_stub (response : Response) : Env :=
  {| env_api := ApiTypes.documented;
     env_sign_jwt := fun _ _ _ _ => Return "token";
     env_requests := fun _ _ => Return response;
     env_json_dumps := Json.dumps;
     env_json_loads := Json.loads |}.

(** A worked environment whose signer has no usable key. *)
Definition keyless_stub : Env :=
  {| env_api := ApiTypes.documented;
     env_sign_jwt := fun _ _ _ _ => Raise (ForeignError "invalid key");
     env_requests := fun _ _ => Return Example.ok;
     env_json_dumps := Json.dumps;
     env_json_loads := Json.loads |}.

(** A worked environment whose transport cannot connect. *)
Definition offline_stub : Env :=
  {| env_api := ApiTypes.documented;
     env_sign_jwt := Example.signer;
     env_requests := fun _ _ => Raise (ForeignError "connection refused");
     env_json_dumps := Json.dumps;
     env_json_loads := Json.loads |}.

(** * Properties *)

(** ** The monad *)

Lemma state_eta (st : State) : {| self := self st; log := log st |} = st.
Proof. destruct st; reflexivity. Qed.

Lemma bind_get_self {B : Type} (k : FireblocksSDK -> M B) (st : State) :
  bind get_self k st = k (self st) st.
Proof. reflexivity. Qed.

Lemma bind_lift {A B : Type} (o : Outcome A) (k : A -> M B) (st : State) :
  bind (lift o) k st
  = match o with
    | Return a => k a st
    | Raise e => (Raise e, st)
    end.
Proof. unfold bind, lift. destruct o; reflexivity. Qed.

Lemma bind_ret {A B : Type} (a : A) (k : A -> M B) (st : State) :
  bind (ret a) k st = k a st.
Proof. reflexivity. Qed.

(** ** Strings and tuples of strings *)

Lemma str_in_true (s : string) (t : list string) : str_in s t = true <-> In s t.
Proof.
  unfold str_in. rewrite existsb_exists. split.
  - intros [x [Hin Heq]]. apply String.eqb_eq in Heq. now subst.
  - intros Hin. exists s. split; [assumption | apply String.eqb_refl].
Qed.

Lemma str_in_false (s : string) (t : list string) : ~ In s t -> str_in s t = false.
Proof.
  intros Hnot. destruct (str_in s t) eqn:E; [|reflexivity].
  apply str_in_true in E. contradiction.
Qed.

Lemma str_truthy_true (s : string) : s <> "" -> str_truthy s = true.
Proof.
  intros Hne. unfold str_truthy.
  destruct (String.eqb_spec s ""); [contradiction | reflexivity].
Qed.

Lemma skipn_exact {A : Type} (l events : list A) :
  skipn (length l) (l ++ events) = events.
Proof. induction l as [|x l IH]; [reflexivity | exact IH]. Qed.

(** ** The request helpers *)

Section Helpers.

Variable env : Env.

Lemma bind_sign_jwt {B : Type} (path : string) (body : option PyVal)
    (k : string -> M B) (st : State) :
  bind (sign_jwt env path body) k st
  = let r := env_sign_jwt env (token_provider (self st)) (log st) path body in
    let st1 := {| self := self st; log := log st ++ [SignJwt path body r] |} in
    match r with
    | Return token => k token st1
    | Raise e => (Raise e, st1)
    end.
Proof.
  unfold bind, sign_jwt. cbv zeta.
  destruct (env_sign_jwt env (token_provider (self st)) (log st) path body);
    reflexivity.
Qed.

Lemma check_response_reply (response : Response) (st : State) :
  check_response env response st = (reply env response, st).
Proof.
  unfold check_response, reply, response_json.
  destruct (300 <=? status_code response); [reflexivity|].
  destruct (env_json_loads env (text response)); reflexivity.
Qed.

Lemma raise_runs (e : Exn) : Runs env (raise e).
Proof.
  intros st. exists []. cbn. rewrite app_nil_r, state_eta.
  split; [reflexivity | constructor].
Qed.

Lemma lift_raise_runs {A : Type} (o : Outcome A) (f : A -> Exn) :
  Runs env (bind (lift o) (fun a => raise (f a))).
Proof.
  intros st. rewrite bind_lift. exists [].
  rewrite app_nil_r, state_eta.
  destruct o; (split; [reflexivity | constructor]).
Qed.

(** Once the token is there, sending and reading the answer is the last
    case of [Exchange]. *)
Lemma send_exchange (m : Method) (path : string) (body : option PyVal)
    (token : string) (p : Payload) (st : State) :
  env_sign_jwt env (token_provider (self st)) (log st) path body = Return token ->
  payload_for env m body = Some p ->
  let req := {| method := m; url := base_url (self st) ++ path;
                headers := headers_for m (self st) token; payload := p |} in
  let st1 := {| self := self st;
                log := log st ++ [SignJwt path body (Return token)] |} in
  let run := bind (requests env req) (check_response env) st1 in
  exists events,
    snd run = {| self := self st; log := log st ++ events |}
    /\ Exchange env (self st) (log st) events (fst run).
Proof.
  intros Hsign Hpay req st1 run.
  exists [SignJwt path body (Return token);
          Transport req (env_requests env (log st1) req)].
  assert (Hex := sent env (self st) (log st) m path body token p req
                   (env_requests env (log st1) req) Hsign Hpay eq_refl eq_refl).
  subst run. unfold bind, requests.
  destruct (env_requests env (log st1) req) as [response|e] eqn:Hreq.
  - rewrite check_response_reply. cbn [fst snd self log].
    split; [|exact Hex].
    subst st1. cbn [self log]. rewrite <- app_assoc. reflexivity.
  - cbn [fst snd self log]. split; [|exact Hex].
    subst st1. cbn [self log]. rewrite <- app_assoc. reflexivity.
Qed.

Lemma _get_request_runs (path : string) : Runs env (_get_request env path).
Proof.
  intros st. unfold _get_request.
  rewrite bind_get_self, bind_sign_jwt. cbv zeta.
  destruct (env_sign_jwt env (token_provider (self st)) (log st) path None)
    as [token|e] eqn:Hsign.
  - exact (send_exchange GET path None token NoPayload st Hsign eq_refl).
  - eexists. split; [reflexivity|]. now constructor.
Qed.

Lemma _delete_request_runs (path : string) : Runs env (_delete_request env path).
Proof.
  intros st. unfold _delete_request.
  rewrite bind_get_self, bind_sign_jwt. cbv zeta.
  destruct (env_sign_jwt env (token_provider (self st)) (log st) path None)
    as [token|e] eqn:Hsign.
  - exact (send_exchange DELETE path None token NoPayload st Hsign eq_refl).
  - eexists. split; [reflexivity|]. now constructor.
Qed.

Lemma _post_request_runs (path : string) (body : PyVal) :
  Runs env (_post_request env path body).
Proof.
  intros st. unfold _post_request.
  rewrite bind_get_self, bind_sign_jwt. cbv zeta.
  destruct (env_sign_jwt env (token_provider (self st)) (log st) path (Some body))
    as [token|e] eqn:Hsign.
  - exact (send_exchange POST path (Some body) token (JsonKw body) st Hsign eq_refl).
  - eexists. split; [reflexivity|]. now constructor.
Qed.

Lemma _put_request_runs (path : string) (body : PyVal) :
  Runs env (_put_request env path body).
Proof.
  intros st. unfold _put_request, json_dumps.
  rewrite bind_get_self, bind_sign_jwt. cbv zeta.
  destruct (env_sign_jwt env (token_provider (self st)) (log st) path (Some body))
    as [token|e] eqn:Hsign.
  - rewrite bind_lift.
    destruct (env_json_dumps env body) as [data|e] eqn:Hdumps.
    + apply (send_exchange PUT path (Some body) token (DataKw data) st Hsign).
      cbn. now rewrite Hdumps.
    + eexists. split; [reflexivity|]. now constructor.
  - eexists. split; [reflexivity|]. now constructor.
Qed.

Lemma _get_request_eq (path : string) :
  _get_request env path
  = bind get_self (fun me =>
      bind (sign_jwt env path None) (fun token =>
        bind (requests env {| method := GET; url := base_url me ++ path;
                              headers := headers_for GET me token;
                              payload := NoPayload |})
             (check_response env))).
Proof. reflexivity. Qed.

(** The first thing a GET helper does is to sign its path, and what it
    sends afterwards goes to that path. *)
Lemma _get_request_signs (path : string) (st : State) :
  exists rest,
    log (snd (_get_request env path st))
    = (log st
       ++ SignJwt path None
            (env_sign_jwt env (token_provider (self st)) (log st) path None)
       :: rest)%list
    /\ forall req result,
         In (Transport req result) rest -> url req = base_url (self st) ++ path.
Proof.
  rewrite _get_request_eq.
  rewrite bind_get_self, bind_sign_jwt. cbv zeta.
  destruct (env_sign_jwt env (token_provider (self st)) (log st) path None)
    as [token|e] eqn:Hsign.
  - unfold bind, requests. cbn [log self].
    match goal with
    | |- context [env_requests env ?l ?r] =>
        destruct (env_requests env l r) as [response|e]
    end.
    + rewrite check_response_reply. cbn [snd log].
      rewrite <- app_assoc. eexists. split; [reflexivity|].
      intros req result [Heq|[]]. injection Heq as <- _. reflexivity.
    + cbn [snd log]. rewrite <- app_assoc. eexists. split; [reflexivity|].
      intros req result [Heq|[]]. injection Heq as <- _. reflexivity.
  - exists []. split; [reflexivity|]. intros req result [].
Qed.

(** ** The operations *)

Lemma get_transactions_runs (before after : option Z) (status : option string)
    (limit : option Z) (order_by : option string) :
  Runs env (get_transactions env before after status limit order_by).
Proof.
  unfold get_transactions.
  destruct (status_refused env status).
  - apply lift_raise_runs.
  - apply _get_request_runs.
Qed.

Lemma create_transaction_runs (asset_id amount source destination fee gas_price
    wait_for_status : PyVal) (tx_type : string) :
  Runs env (create_transaction env asset_id amount source destination fee
              gas_price wait_for_status tx_type).
Proof.
  unfold create_transaction.
  destruct (negb (str_in tx_type _)); [apply lift_raise_runs|].
  destruct (negb (ApiTypes.isinstance _ source _)); [apply lift_raise_runs|].
  intros st. rewrite bind_lift.
  destruct (dunder_dict source) as [source_dict|e];
    [|apply (raise_runs e st)].
  destruct (truthy destination).
  - destruct (negb (ApiTypes.isinstance _ destination _)).
    + unfold bind at 1. rewrite bind_lift.
      destruct (str_add destination_message (type_ destination));
        apply (raise_runs _ st).
    + unfold bind at 1. rewrite bind_lift.
      destruct (dunder_dict destination) as [destination_dict|e];
        [|apply (raise_runs e st)].
      apply _post_request_runs.
  - rewrite bind_ret. apply _post_request_runs.
Qed.

(** Every operation is an [Exchange] and leaves the client object alone. *)
Lemma call_runs (c : Call) : Runs env (call env c).
Proof.
  destruct c; cbn [call];
    first [ apply get_transactions_runs
          | apply create_transaction_runs
          | apply _get_request_runs
          | apply _post_request_runs
          | apply _put_request_runs
          | apply _delete_request_runs ].
Qed.

Lemma new_events_spec (c : Call) (st : State) :
  snd (call env c st) = {| self := self st; log := log st ++ new_events env c st |}
  /\ Exchange env (self st) (log st) (new_events env c st) (fst (call env c st)).
Proof.
  destruct (call_runs c st) as [events [Hsnd Hex]].
  unfold new_events. rewrite Hsnd. cbn [log]. rewrite skipn_exact.
  split; [reflexivity | exact Hex].
Qed.

Lemma call_self (c : Call) (st : State) : self (snd (call env c st)) = self st.
Proof. now rewrite (proj1 (new_events_spec c st)). Qed.

Lemma session_self (calls : list Call) (st : State) :
  self (session env calls st) = self st.
Proof.
  revert st. induction calls as [|c calls IH]; intros st; [reflexivity|].
  cbn [session]. rewrite IH. apply call_self.
Qed.

End Helpers.

(** ** Validation of enumerated arguments *)

Lemma new_events_unchanged (env : Env) (c : Call) (st : State) (out : Outcome PyVal) :
  call env c st = (out, st) -> new_events env c st = [].
Proof.
  intros Hcall. unfold new_events. rewrite Hcall. cbn [snd].
  apply skipn_all.
Qed.

Lemma get_transactions_refuses (env : Env) (before after : option Z)
    (status : string) (limit : option Z) (order_by : option string) (st : State) :
  status <> "" ->
  ~ In status (ApiTypes.TRANSACTION_STATUS_TYPES (env_api env)) ->
  get_transactions env before after (Some status) limit order_by st
  = (Raise (FireblocksApiException ("Got invalid transaction type: " ++ status)), st).
Proof.
  intros Hne Hnot. unfold get_transactions, status_refused.
  rewrite (str_truthy_true _ Hne), (str_in_false _ _ Hnot). reflexivity.
Qed.

Lemma create_transaction_refuses (env : Env) (asset_id amount source destination
    fee gas_price wait_for_status : PyVal) (tx_type : string) (st : State) :
  ~ In tx_type (ApiTypes.TRANSACTION_TYPES (env_api env)) ->
  create_transaction env asset_id amount source destination fee gas_price
    wait_for_status tx_type st
  = (Raise (FireblocksApiException ("Got invalid transaction type: " ++ tx_type)), st).
Proof.
  intros Hnot. unfold create_transaction.
  rewrite (str_in_false _ _ Hnot). reflexivity.
Qed.

(** C3: [get_transactions] with a non-empty status outside the allowed
    statuses, and [create_transaction] with a type outside the allowed types,
    raise the API's exception and leave the log as it was: no token was asked
    for and the transport was not called. *)
Theorem disallowed_value_fails_before_any_call (env : Env) :
  (forall before after status limit order_by st,
      status <> "" ->
      ~ In status (ApiTypes.TRANSACTION_STATUS_TYPES (env_api env)) ->
      let c := GetTransactions before after (Some status) limit order_by in
      call env c st
      = (Raise (FireblocksApiException ("Got invalid transaction type: " ++ status)),
         st)
      /\ new_events env c st = []
      /\ transport_calls (new_events env c st) = 0%nat)
  /\ (forall asset_id amount source destination fee gas_price wait_for_status
        tx_type st,
      ~ In tx_type (ApiTypes.TRANSACTION_TYPES (env_api env)) ->
      let c := CreateTransaction asset_id amount source destination fee gas_price
                 wait_for_status tx_type in
      call env c st
      = (Raise (FireblocksApiException ("Got invalid transaction type: " ++ tx_type)),
         st)
      /\ new_events env c st = []
      /\ transport_calls (new_events env c st) = 0%nat).
Proof.
  split.
  - intros before after status limit order_by st Hne Hnot c.
    assert (Hcall := get_transactions_refuses env before after status limit
                       order_by st Hne Hnot).
    assert (Hnew := new_events_unchanged env c st _ Hcall).
    split; [exact Hcall|]. split; [exact Hnew|]. now rewrite Hnew.
  - intros asset_id amount source destination fee gas_price wait_for_status
      tx_type st Hnot c.
    assert (Hcall := create_transaction_refuses env asset_id amount source
                       destination fee gas_price wait_for_status tx_type st Hnot).
    assert (Hnew := new_events_unchanged env c st _ Hcall).
    split; [exact Hcall|]. split; [exact Hnew|]. now rewrite Hnew.
Qed.

Lemma not_in_documented_statuses :
  ~ In "ARCHIVED" (ApiTypes.TRANSACTION_STATUS_TYPES ApiTypes.documented).
Proof. cbn. intuition discriminate. Qed.

Lemma not_in_documented_types :
  ~ In "SWAP" (ApiTypes.TRANSACTION_TYPES ApiTypes.documented).
Proof. cbn. intuition discriminate. Qed.

Lemma disallowed_value_fails_witness :
  call (Example.stub Example.ok)
    (GetTransactions (Some 0) (Some 0) (Some "ARCHIVED") None None) Example.client
  = (Raise (FireblocksApiException "Got invalid transaction type: ARCHIVED"),
     Example.client)
  /\ call (Example.stub Example.ok)
       (CreateTransaction (PyStr "BTC") (PyInt 1) Example.vault PyNone PyNone PyNone
          (PyBool false) "SWAP") Example.client
     = (Raise (FireblocksApiException "Got invalid transaction type: SWAP"),
        Example.client).
Proof.
  split.
  - apply (proj1 (disallowed_value_fails_before_any_call (Example.stub Example.ok))
             (Some 0) (Some 0) "ARCHIVED" None None Example.client).
    + discriminate.
    + exact not_in_documented_statuses.
  - apply (proj2 (disallowed_value_fails_before_any_call (Example.stub Example.ok))
             (PyStr "BTC") (PyInt 1) Example.vault PyNone PyNone PyNone
             (PyBool false) "SWAP" Example.client).
    exact not_in_documented_types.
Defined.

(** ** The query string of [get_transactions] *)

(** C10: [get_transactions] leaves every falsy filter out of the query
    string.  With [before], [after] and [limit] zero or [None] and [status]
    and [order_by] empty or [None], the call is the GET of exactly
    [/v1/transactions]: that is the path it signs and the path it sends to,
    and the call is the same as the one with every argument omitted. *)
Theorem falsy_filters_are_omitted (env : Env) (before after : option Z)
    (status : option string) (limit : option Z) (order_by : option string)
    (st : State) :
  before = Some 0 \/ before = None ->
  after = Some 0 \/ after = None ->
  limit = Some 0 \/ limit = None ->
  status = Some "" \/ status = None ->
  order_by = Some "" \/ order_by = None ->
  let run := get_transactions env before after status limit order_by st in
  run = _get_request env "/v1/transactions" st
  /\ run = get_transactions env (Some 0) (Some 0) None None None st
  /\ exists rest,
       log (snd run)
       = (log st
          ++ SignJwt "/v1/transactions" None
               (env_sign_jwt env (token_provider (self st)) (log st)
                  "/v1/transactions" None)
          :: rest)%list
       /\ forall req result,
            In (Transport req result) rest ->
            url req = base_url (self st) ++ "/v1/transactions".
Proof.
  intros Hbefore Hafter Hlimit Hstatus Horder run.
  assert (Hrun : run = _get_request env "/v1/transactions" st).
  { subst run.
    destruct Hbefore as [-> | ->], Hafter as [-> | ->], Hlimit as [-> | ->],
      Hstatus as [-> | ->], Horder as [-> | ->]; reflexivity. }
  split; [exact Hrun|]. split; [rewrite Hrun; reflexivity|].
  rewrite Hrun. apply _get_request_signs.
Qed.

Lemma falsy_filters_are_omitted_witness :
  get_transactions (Example.stub Example.ok) (Some 0) (Some 0) (Some "") (Some 0)
    (Some "") Example.client
  = _get_request (Example.stub Example.ok) "/v1/transactions" Example.client.
Proof.
  apply (falsy_filters_are_omitted (Example.stub Example.ok) (Some 0) (Some 0)
           (Some "") (Some 0) (Some "") Example.client);
    left; reflexivity.
Defined.

(** ** What is validated and what is not *)






(** ** The type checks of [create_transaction] *)

(** C9, as the code has it: when the transaction type is an allowed one, a
    source that is not an instance of [TransferPeerPath] makes
    [create_transaction] raise [TypeError], not the API's exception, with
    nothing signed or sent; and when the type and the source pass, so does a
    truthy destination that is an instance of neither transfer-path class. *)
Theorem wrong_peer_type_raises_type_error (env : Env) (asset_id amount source
    destination fee gas_price wait_for_status : PyVal) (tx_type : string)
    (st : State) :
  In tx_type (ApiTypes.TRANSACTION_TYPES (env_api env)) ->
  ApiTypes.isinstance (env_api env) source [TransferPeerPath] = false
  \/ (ApiTypes.isinstance (env_api env) source [TransferPeerPath] = true
      /\ truthy destination = true
      /\ ApiTypes.isinstance (env_api env) destination
           [TransferPeerPath; DestinationTransferPeerPath] = false) ->
  let c := CreateTransaction asset_id amount source destination fee gas_price
             wait_for_status tx_type in
  call env c st = (Raise TypeError, st)
  /\ new_events env c st = [].
Proof.
  intros Htype Hpeer c.
  assert (Hcall : call env c st = (Raise TypeError, st)).
  { subst c. cbn [call]. unfold create_transaction.
    apply str_in_true in Htype. rewrite Htype. cbn [negb].
    destruct Hpeer as [Hsource | [Hsource [Htruthy Hdestination]]].
    - rewrite Hsource. reflexivity.
    - rewrite Hsource. cbn [negb]. rewrite bind_lift.
      destruct source; try discriminate Hsource. cbn [dunder_dict].
      rewrite Htruthy, Hdestination. reflexivity. }
  split; [exact Hcall | exact (new_events_unchanged env c st _ Hcall)].
Qed.

Lemma wrong_peer_type_witness :
  call (Example.stub Example.ok)
    (CreateTransaction (PyStr "BTC") (PyInt 1) (PyStr "vault 0") PyNone PyNone PyNone
       (PyBool false) "TRANSFER") Example.client
  = (Raise TypeError, Example.client)
  /\ call (Example.stub Example.ok)
       (CreateTransaction (PyStr "BTC") (PyInt 1) Example.vault (PyStr "0x00") PyNone
          PyNone (PyBool false) "TRANSFER") Example.client
     = (Raise TypeError, Example.client).
Proof.
  split.
  - apply (wrong_peer_type_raises_type_error (Example.stub Example.ok) (PyStr "BTC")
             (PyInt 1) (PyStr "vault 0") PyNone PyNone PyNone (PyBool false)
             "TRANSFER" Example.client).
    + cbn. left. reflexivity.
    + left. reflexivity.
  - apply (wrong_peer_type_raises_type_error (Example.stub Example.ok) (PyStr "BTC")
             (PyInt 1) Example.vault (PyStr "0x00") PyNone PyNone (PyBool false)
             "TRANSFER" Example.client).
    + cbn. left. reflexivity.
    + right. repeat split; reflexivity.
Defined.

(** C9 as written fails twice.  With a transaction type outside the allowed
    ones the type check comes first and raises the API's exception, whatever
    the source is; and an empty string as destination, which is of a
    disallowed type, is falsy and never checked: the request is sent. *)
Lemma wrong_peer_type_counterexample :
  ~ type_error_for_source (Example.stub Example.ok) Example.client PyNone "SWAP"
  /\ call (Example.stub Example.ok)
       (CreateTransaction (PyStr "BTC") (PyInt 1) PyNone PyNone PyNone PyNone
          (PyBool false) "SWAP") Example.client
     = (Raise (FireblocksApiException "Got invalid transaction type: SWAP"),
        Example.client)
  /\ ~ type_error_for_destination (Example.stub Example.ok) Example.client
         Example.vault (PyStr "") "TRANSFER"
  /\ (let run := call (Example.stub Example.ok)
                   (CreateTransaction (PyStr "BTC") (PyInt 1) Example.vault
                      (PyStr "") PyNone PyNone (PyBool false) "TRANSFER")
                   Example.client in
      fst run = Return (PyDict [("id", PyStr "abc")])
      /\ transport_calls (log (snd run)) = 1%nat).
Proof.
  split; [|split; [|split; [|split]]].
  - intros H.
    specialize (H eq_refl (PyStr "BTC") (PyInt 1) PyNone PyNone PyNone (PyBool false)).
    vm_compute in H. discriminate H.
  - vm_compute. reflexivity.
  - intros H.
    specialize (H ltac:(discriminate) eq_refl (PyStr "BTC") (PyInt 1) PyNone PyNone
                  (PyBool false)).
    vm_compute in H. discriminate H.
  - vm_compute. reflexivity.
  - vm_compute. reflexivity.
Qed.

(** ** What becomes of a response *)

Lemma reply_of_exchange (env : Env) (me : FireblocksSDK) (before events : list Event)
    (out : Outcome PyVal) (response : Response) :
  Exchange env me before events out ->
  response_of events = Some response ->
  out = reply env response.
Proof.
  intros Hex Hresp. destruct Hex as [e | path body e _ | path body token e _ _
                                    | m path body token p req result _ _ _ _];
    try discriminate Hresp.
  destruct result as [r|e]; [|discriminate Hresp].
  injection Hresp as ->. reflexivity.
Qed.

(** An exchange with a stub that always answers [response]: either the
    transport was not reached, or the outcome is the reply to [response]. *)
Lemma stub_exchange (response : Response) (c : Call) (st : State) :
  transport_calls (new_events (Example.stub response) c st) = 0%nat
  \/ fst (call (Example.stub response) c st) = reply (Example.stub response) response.
Proof.
  destruct (new_events_spec (Example.stub response) c st) as [_ Hex].
  destruct Hex as [e | path body e _ | path body token e _ _
                  | m path body token p req result _ _ _ Hresult];
    try (left; reflexivity).
  right. rewrite Hresult. reflexivity.
Qed.

(** C2: when an operation got a response from the transport, it raises the
    API's exception with the response text after the fixed prefix exactly
    when the status is 300 or more, and otherwise its outcome is the decoded
    response text (the decoder's error when the text is not JSON).  With a
    stub that answers 404 and [not found], every operation that reaches the
    transport raises with [not found] in the message; with one that
    answers 200 and [{"id":"abc"}], it returns the dict with [id] bound to
    [abc].  One operation of each method is run to show that they reach the
    transport. *)
Theorem response_decides_outcome :
  (forall env c st response,
      response_of (new_events env c st) = Some response ->
      (fst (call env c st)
       = Raise (FireblocksApiException (error_prefix ++ text response))
       <-> 300 <= status_code response)
      /\ (status_code response < 300 ->
          fst (call env c st)
          = match env_json_loads env (text response) with
            | Some v => Return v
            | None => Raise ValueError
            end))
  /\ (forall c st,
      transport_calls (new_events (Example.stub Example.not_found) c st) = 0%nat
      \/ fst (call (Example.stub Example.not_found) c st)
         = Raise (FireblocksApiException
                    "Got an error from fireblocks server: not found"))
  /\ (forall c st,
      transport_calls (new_events (Example.stub Example.ok) c st) = 0%nat
      \/ fst (call (Example.stub Example.ok) c st)
         = Return (PyDict [("id", PyStr "abc")]))
  /\ (forall c st,
      In c one_of_each ->
      fst (call (Example.stub Example.not_found) c st)
      = Raise (FireblocksApiException
                 "Got an error from fireblocks server: not found")
      /\ fst (call (Example.stub Example.ok) c st)
         = Return (PyDict [("id", PyStr "abc")])).
Proof.
  split; [|split; [|split]].
  - intros env c st response Hresp.
    destruct (new_events_spec env c st) as [_ Hex].
    rewrite (reply_of_exchange _ _ _ _ _ _ Hex Hresp). unfold reply.
    destruct (Z.leb_spec 300 (status_code response)) as [Hge|Hlt].
    + split; [tauto | lia].
    + split; [|reflexivity]. split; [|lia].
      destruct (env_json_loads env (text response)); discriminate.
  - intros c st. exact (stub_exchange Example.not_found c st).
  - intros c st. exact (stub_exchange Example.ok c st).
  - intros c st Hin.
    destruct Hin as [<- | [<- | [<- | [<- | []]]]]; split; reflexivity.
Qed.

Lemma response_decides_outcome_witness :
  fst (call (Example.stub Example.not_found) GetVaultAccounts Example.client)
  = Raise (FireblocksApiException "Got an error from fireblocks server: not found")
  <-> 300 <= 404.
Proof.
  apply (proj1 response_decides_outcome (Example.stub Example.not_found)
           GetVaultAccounts Example.client Example.not_found).
  reflexivity.
Defined.

(** ** What is signed is what is sent *)

Lemma headers_for_api_key (m : Method) (me : FireblocksSDK) (token : string)
    (p : Payload) (u : string) :
  header "X-API-Key"
    {| method := m; url := u; headers := headers_for m me token; payload := p |}
  = Some (api_key me).
Proof. destruct m; reflexivity. Qed.

Lemma headers_for_authorization (m : Method) (me : FireblocksSDK) (token : string)
    (p : Payload) (u : string) :
  header "Authorization"
    {| method := m; url := u; headers := headers_for m me token; payload := p |}
  = Some ("Bearer " ++ token).
Proof. destruct m; reflexivity. Qed.

(** The payload of a request, read against the body that was signed. *)
Lemma payload_for_cases (env : Env) (m : Method) (body : option PyVal) (p : Payload) :
  payload_for env m body = Some p ->
  match m with
  | GET | DELETE => body = None /\ p = NoPayload
  | POST => exists b, body = Some b /\ p = JsonKw b
  | PUT => exists b data,
      body = Some b /\ env_json_dumps env b = Return data /\ p = DataKw data
  end.
Proof.
  destruct m, body as [b|]; cbn; try discriminate.
  - intros [= <-]. split; reflexivity.
  - intros [= <-]. exists b. split; reflexivity.
  - destruct (env_json_dumps env b) as [data|e] eqn:Hdumps; [|discriminate].
    intros [= <-]. exists b, data. auto.
  - intros [= <-]. split; reflexivity.
Qed.

(** C1, as the code has it: whenever an operation calls the transport, it
    has just signed, and the path it signed is the very string appended to
    the base URL.  GET and DELETE sign no body and send none; POST hands the
    transport the object it signed; PUT hands the transport the text
    [json.dumps] makes of the object it signed. *)
Theorem signed_path_and_body_are_sent (env : Env) (c : Call) (st : State)
    (req : Request) (result : Outcome Response) :
  In (Transport req result) (new_events env c st) ->
  exists path body token,
    new_events env c st = [SignJwt path body (Return token); Transport req result]
    /\ url req = base_url (self st) ++ path
    /\ match method req with
       | GET | DELETE => body = None /\ payload req = NoPayload
       | POST => exists b, body = Some b /\ payload req = JsonKw b
       | PUT => exists b data,
           body = Some b /\ env_json_dumps env b = Return data
           /\ payload req = DataKw data
       end.
Proof.
  intros Hin.
  destruct (new_events_spec env c st) as [_ Hex].
  destruct Hex as [e | path body e _ | path body token e _ _
                  | m path body token p req0 result0 _ Hpay Hreq _].
  - destruct Hin.
  - destruct Hin as [Heq|[]]. discriminate Heq.
  - destruct Hin as [Heq|[]]. discriminate Heq.
  - destruct Hin as [Heq|[Heq|[]]]; [discriminate Heq|].
    injection Heq as <- <-.
    exists path, body, token. split; [reflexivity|].
    rewrite Hreq. cbn [url method payload]. split; [reflexivity|].
    exact (payload_for_cases env m body p Hpay).
Qed.

Lemma signed_path_and_body_witness :
  exists path body token,
    new_events (Example.stub Example.ok)
      (CreateVaultAccount (PyStr "Main") (PyBool false)) Example.client
    = [SignJwt path body (Return token);
       Transport {| method := POST;
                    url := "https://api.fireblocks.io/v1/vault/accounts";
                    headers := [("X-API-Key", "my-api-key");
                                ("Authorization", "Bearer token0")];
                    payload := JsonKw (PyDict [("name", PyStr "Main");
                                               ("hiddenOnUI", PyBool false)]) |}
                 (Return Example.ok)]
    /\ "https://api.fireblocks.io/v1/vault/accounts"
       = "https://api.fireblocks.io" ++ path
    /\ exists b,
         body = Some b
         /\ JsonKw (PyDict [("name", PyStr "Main"); ("hiddenOnUI", PyBool false)])
            = JsonKw b.
Proof.
  apply (signed_path_and_body_are_sent (Example.stub Example.ok)
           (CreateVaultAccount (PyStr "Main") (PyBool false)) Example.client
           {| method := POST;
              url := "https://api.fireblocks.io/v1/vault/accounts";
              headers := [("X-API-Key", "my-api-key");
                          ("Authorization", "Bearer token0")];
              payload := JsonKw (PyDict [("name", PyStr "Main");
                                         ("hiddenOnUI", PyBool false)]) |}
           (Return Example.ok)).
  right. left. reflexivity.
Defined.

(** C1 as written fails for PUT: [set_address_description] signs the body
    object and hands the transport a string, the [json.dumps] of it. *)
Lemma same_object_handed_counterexample :
  ~ same_object_handed
      (new_events (Example.stub Example.ok)
         (SetAddressDescription "0" "BTC" "bc1q" None (Some "cold storage"))
         Example.client)
  /\ new_events (Example.stub Example.ok)
       (SetAddressDescription "0" "BTC" "bc1q" None (Some "cold storage"))
       Example.client
     = [SignJwt "/v1/vault/accounts/0/BTC/addresses/bc1q:"
          (Some (PyDict [("description", PyStr "cold storage")]))
          (Return "token0");
        Transport
          {| method := PUT;
             url := "https://api.fireblocks.io/v1/vault/accounts/0/BTC/addresses/bc1q:";
             headers := [("X-API-Key", "my-api-key");
                         ("Authorization", "Bearer token0");
                         ("Content-Type", "application/json")];
             payload := DataKw ("{" ++ Json.quote "description" ++ ": "
                                ++ Json.quote "cold storage" ++ "}") |}
          (Return Example.ok)].
Proof.
  assert (Hevents :
    new_events (Example.stub Example.ok)
      (SetAddressDescription "0" "BTC" "bc1q" None (Some "cold storage"))
      Example.client
    = [SignJwt "/v1/vault/accounts/0/BTC/addresses/bc1q:"
         (Some (PyDict [("description", PyStr "cold storage")]))
         (Return "token0");
       Transport
         {| method := PUT;
            url := "https://api.fireblocks.io/v1/vault/accounts/0/BTC/addresses/bc1q:";
            headers := [("X-API-Key", "my-api-key");
                        ("Authorization", "Bearer token0");
                        ("Content-Type", "application/json")];
            payload := DataKw ("{" ++ Json.quote "description" ++ ": "
                               ++ Json.quote "cold storage" ++ "}") |}
         (Return Example.ok)]) by (vm_compute; reflexivity).
  split; [|exact Hevents].
  rewrite Hevents. intros H.
  destruct (H _ _ (or_intror (or_introl eq_refl)) (or_intror eq_refl))
    as [path [body [token [_ Hpayload]]]].
  discriminate Hpayload.
Qed.

(** ** Every request is authenticated *)

(** A transport call in what one operation logged comes right after the
    successful signing of its path and body, and carries the key and the
    token. *)
Lemma exchange_transport (env : Env) (me : FireblocksSDK)
    (before events : list Event) (out : Outcome PyVal)
    (pre post : list Event) (req : Request) (result : Outcome Response) :
  Exchange env me before events out ->
  events = (pre ++ Transport req result :: post)%list ->
  exists path body token,
    pre = [SignJwt path body (Return token)]
    /\ env_sign_jwt env (token_provider me) before path body = Return token
    /\ header "X-API-Key" req = Some (api_key me)
    /\ header "Authorization" req = Some ("Bearer " ++ token)
    /\ url req = base_url me ++ path
    /\ payload_for env (method req) body = Some (payload req).
Proof.
  intros Hex Hevents.
  destruct Hex as [e | path body e _ | path body token e _ _
                  | m path body token p req0 result0 Hsign Hpay Hreq _].
  - destruct pre; discriminate Hevents.
  - destruct pre as [|ev [|ev' pre]]; discriminate Hevents.
  - destruct pre as [|ev [|ev' pre]]; discriminate Hevents.
  - destruct pre as [|ev [|ev' pre]]; try discriminate Hevents.
    + injection Hevents as <- Hreq0 _ _.
      exists path, body, token. subst req0. rewrite <- Hreq0.
      split; [reflexivity|]. split; [exact Hsign|].
      split; [apply headers_for_api_key|].
      split; [apply headers_for_authorization|].
      split; [reflexivity | exact Hpay].
    + injection Hevents as _ _ Hrest. destruct pre; discriminate Hrest.
Qed.

(** The same, of a whole session: a transport call is either one the log
    held at the start, or it follows its own signing. *)
Lemma session_transport (env : Env) (calls : list Call) (st : State)
    (pre post : list Event) (req : Request) (result : Outcome Response) :
  log (session env calls st) = (pre ++ Transport req result :: post)%list ->
  (exists post', log st = (pre ++ Transport req result :: post')%list)
  \/ exists before path body token,
       pre = (before ++ [SignJwt path body (Return token)])%list
       /\ env_sign_jwt env (token_provider (self st)) before path body = Return token
       /\ header "X-API-Key" req = Some (api_key (self st))
       /\ header "Authorization" req = Some ("Bearer " ++ token)
       /\ url req = base_url (self st) ++ path
       /\ payload_for env (method req) body = Some (payload req).
Proof.
  revert st. induction calls as [|c calls IH]; intros st Hlog.
  - left. exists post. exact Hlog.
  - cbn [session] in Hlog.
    destruct (new_events_spec env c st) as [Hsnd Hex].
    destruct (IH _ Hlog) as [[post' Hin] | Hlater].
    + rewrite Hsnd in Hin. cbn [log] in Hin.
      destruct (app_eq_app _ _ _ _ Hin) as [l [[Hl Hr] | [Hl Hr]]].
      * destruct l as [|ev l].
        -- rewrite app_nil_r in Hl. cbn [app] in Hr.
           right.
           destruct (exchange_transport env (self st) (log st) _ _ [] post' req result
                       Hex (eq_sym Hr))
             as [path [body [token [Hpre _]]]].
           discriminate Hpre.
        -- injection Hr as <- _. left. exists l. exact Hl.
      * right.
        destruct (exchange_transport env (self st) (log st) _ _ l post' req result
                    Hex Hr)
          as [path [body [token [Hpre Hrest]]]].
        exists (log st), path, body, token. split; [|exact Hrest].
        rewrite Hl, Hpre. reflexivity.
    + right. rewrite Hsnd in Hlater. cbn [self] in Hlater. exact Hlater.
Qed.

(** C5: in any run of a client constructed with API key [api_key], every
    request handed to the transport, whatever its method, comes right after a
    successful call of the signer on the request's own path and body, carries
    that call's token after [Bearer ] in its [Authorization] header and the
    API key in its [X-API-Key] header, and goes to the base URL followed by
    the signed path. *)
Theorem every_request_carries_key_and_fresh_token (env : Env)
    (private_key api_key api_base_url : string) (calls : list Call)
    (pre post : list Event) (req : Request) (result : Outcome Response) :
  log (session env calls (start private_key api_key api_base_url))
  = (pre ++ Transport req result :: post)%list ->
  exists before path body token,
    pre = (before ++ [SignJwt path body (Return token)])%list
    /\ env_sign_jwt env
         (token_provider (__init__ private_key api_key api_base_url))
         before path body
       = Return token
    /\ header "X-API-Key" req = Some api_key
    /\ header "Authorization" req = Some ("Bearer " ++ token)
    /\ url req = api_base_url ++ path
    /\ payload_for env (method req) body = Some (payload req).
Proof.
  intros Hlog.
  destruct (session_transport env calls _ pre post req result Hlog)
    as [[post' Hstart] | Hauth].
  - cbn in Hstart. destruct pre; discriminate Hstart.
  - exact Hauth.
Qed.

Lemma every_request_witness :
  exists before path body token,
    before_wallet_request = (before ++ [SignJwt path body (Return token)])%list
    /\ env_sign_jwt (Example.stub Example.ok)
         (token_provider (__init__ "PEM" "my-api-key" default_api_base_url))
         before path body
       = Return token
    /\ header "X-API-Key" wallet_request = Some "my-api-key"
    /\ header "Authorization" wallet_request = Some ("Bearer " ++ token)
    /\ url wallet_request = default_api_base_url ++ path
    /\ payload_for (Example.stub Example.ok) (method wallet_request) body
       = Some (payload wallet_request).
Proof.
  apply (every_request_carries_key_and_fresh_token (Example.stub Example.ok)
           "PEM" "my-api-key" default_api_base_url two_calls
           before_wallet_request [] wallet_request (Return Example.ok)).
  vm_compute. reflexivity.
Defined.

(** ** The client object is never written to *)

(** C8: no operation changes the client object, whether it returns or
    raises.  After any sequence of calls the four fields are the ones set at
    construction, and the next call runs on a client that differs from a new
    one in nothing but the log of calls already made. *)
Theorem client_is_never_modified (env : Env) :
  (forall c st, self (snd (call env c st)) = self st)
  /\ (forall pem key_id api_base_url calls,
      let me := self (session env calls (start pem key_id api_base_url)) in
      private_key me = pem
      /\ api_key me = key_id
      /\ base_url me = api_base_url
      /\ token_provider me = {| provider_private_key := pem;
                                provider_api_key := key_id |})
  /\ (forall pem key_id api_base_url calls c,
      let st := session env calls (start pem key_id api_base_url) in
      call env c st
      = call env c {| self := __init__ pem key_id api_base_url; log := log st |}).
Proof.
  split; [|split].
  - intros c st. apply call_self.
  - intros pk ak url calls me. subst me. rewrite session_self.
    repeat split; reflexivity.
  - intros pk ak url calls c st.
    rewrite <- (state_eta st) at 1. subst st. rewrite session_self. reflexivity.
Qed.

(** ** The token signer *)

(** C7: the expiry of every token [sign] generates is its issued-at time
    plus the validity window. *)
Theorem expiry_is_issued_at_plus_window (provider : SdkTokenProvider)
    (src : TokenSigner.Sources) (path : string) (body : option PyVal)
    (cs : TokenSigner.ClaimSet) (token : string) :
  TokenSigner.sign provider src path body = Return (cs, token) ->
  TokenSigner.expiry cs - TokenSigner.issued_at cs = TokenSigner.validity_window.
Proof.
  unfold TokenSigner.sign, TokenSigner.claims.
  destruct (TokenSigner.canonical_json src _) as [text|e]; [|discriminate].
  destruct (TokenSigner.signature src _ _) as [signed|e]; [|discriminate].
  intros [= <- _]. cbn [TokenSigner.expiry TokenSigner.issued_at]. lia.
Qed.

Lemma expiry_is_issued_at_plus_window_witness :
  1600000055 - 1600000000 = TokenSigner.validity_window.
Proof.
  apply (expiry_is_issued_at_plus_window
           {| provider_private_key := "PEM"; provider_api_key := "my-api-key" |}
           TokenSigner.example_sources "/v1/vault/accounts" None
           {| TokenSigner.subject := "my-api-key";
              TokenSigner.nonce := 42;
              TokenSigner.issued_at := 1600000000;
              TokenSigner.expiry := 1600000055;
              TokenSigner.uri := "/v1/vault/accounts";
              TokenSigner.body_hash := "sha256:{}" |}
           "signed:/v1/vault/accounts").
  vm_compute. reflexivity.
Defined.

(** * Further properties of the client *)

(** ** Every operation carries out a plan *)

Section Plans.

Variable env : Env.

Lemma requests_check (req : Request) (st : State) :
  bind (requests env req) (check_response env) st
  = (match env_requests env (log st) req with
     | Return response => reply env response
     | Raise e => Raise e
     end,
     {| self := self st;
        log := log st ++ [Transport req (env_requests env (log st) req)] |}).
Proof.
  unfold bind, requests.
  destruct (env_requests env (log st) req) as [response|e];
    [rewrite check_response_reply|]; reflexivity.
Qed.

Lemma _delete_request_eq (path : string) :
  _delete_request env path
  = bind get_self (fun me =>
      bind (sign_jwt env path None) (fun token =>
        bind (requests env {| method := DELETE; url := base_url me ++ path;
                              headers := headers_for DELETE me token;
                              payload := NoPayload |})
             (check_response env))).
Proof. reflexivity. Qed.

Lemma _post_request_eq (path : string) (body : PyVal) :
  _post_request env path body
  = bind get_self (fun me =>
      bind (sign_jwt env path (Some body)) (fun token =>
        bind (requests env {| method := POST; url := base_url me ++ path;
                              headers := headers_for POST me token;
                              payload := JsonKw body |})
             (check_response env))).
Proof. reflexivity. Qed.

Lemma _put_request_eq (path : string) (body : PyVal) :
  _put_request env path body
  = bind get_self (fun me =>
      bind (sign_jwt env path (Some body)) (fun token =>
        bind (lift (env_json_dumps env body)) (fun data =>
          bind (requests env {| method := PUT; url := base_url me ++ path;
                                headers := headers_for PUT me token;
                                payload := DataKw data |})
               (check_response env)))).
Proof. reflexivity. Qed.

(** A helper is its [transmit]. *)
Lemma perform_carry_out (p : Plan) (st : State) :
  perform env p st
  = (snd (carry_out env (self st) (log st) p),
     {| self := self st;
        log := log st ++ fst (carry_out env (self st) (log st) p) |}).
Proof.
  destruct p as [e | path | path | path body | path body];
    cbn [perform carry_out].
  - cbn. now rewrite app_nil_r, state_eta.
  - rewrite _get_request_eq, bind_get_self, bind_sign_jwt.
    unfold transmit. cbv zeta.
    destruct (env_sign_jwt env (token_provider (self st)) (log st) path None)
      as [token|e]; [|reflexivity].
    rewrite requests_check. cbn [fst snd self log].
    now rewrite <- app_assoc.
  - rewrite _delete_request_eq, bind_get_self, bind_sign_jwt.
    unfold transmit. cbv zeta.
    destruct (env_sign_jwt env (token_provider (self st)) (log st) path None)
      as [token|e]; [|reflexivity].
    rewrite requests_check. cbn [fst snd self log].
    now rewrite <- app_assoc.
  - rewrite _post_request_eq, bind_get_self, bind_sign_jwt.
    unfold transmit. cbv zeta.
    destruct (env_sign_jwt env (token_provider (self st)) (log st) path (Some body))
      as [token|e]; [|reflexivity].
    rewrite requests_check. cbn [fst snd self log].
    now rewrite <- app_assoc.
  - rewrite _put_request_eq, bind_get_self, bind_sign_jwt.
    unfold transmit. cbv zeta.
    destruct (env_sign_jwt env (token_provider (self st)) (log st) path (Some body))
      as [token|e]; [|reflexivity].
    rewrite bind_lift.
    destruct (env_json_dumps env body) as [data|e]; [|reflexivity].
    rewrite requests_check. cbn [fst snd self log].
    now rewrite <- app_assoc.
Qed.

End Plans.

(** Finds the helper call an operation without argument checks ends in. *)
Ltac helper_plan :=
  first [ eexists (Get _); split; [intro; reflexivity|]
        | eexists (Delete _); split; [intro; reflexivity|]
        | eexists (Post _ _); split; [intro; reflexivity|]
        | eexists (Put _ _); split; [intro; reflexivity|] ].

Ltac refuse_plan :=
  eexists (Refuse _); split; [intro; reflexivity|].

Ltac plan_facts :=
  split; [cbn; eauto | intros ? [= <-]; reflexivity].

Lemma transactions_path_v1 (params : list (string * Urllib.QueryValue)) :
  prefix "/v1/"
    match params with
    | [] => "/v1/transactions"
    | _ :: _ => "/v1/transactions" ++ "?" ++ Urllib.urlencode params
    end = true.
Proof. destruct params; reflexivity. Qed.

(** Every operation is the carrying out of one plan, which does not depend
    on the state it is called in.  The plan is a refusal exactly when an
    argument check fails; otherwise its method is the operation's, and its
    path is under [/v1/]. *)
Lemma call_plan (env : Env) (c : Call) :
  exists p,
    (forall st, call env c st = perform env p st)
    /\ (if refuses env c then exists e, p = Refuse e
        else plan_method p = Some (method_of c))
    /\ (forall path, plan_path p = Some path -> prefix "/v1/" path = true).
Proof.
  destruct c; cbn [call refuses]; try (helper_plan; plan_facts).
  - (* get_transactions *)
    unfold get_transactions.
    destruct (status_refused env status) eqn:Hrefused.
    + destruct status as [s|]; [|discriminate Hrefused].
      refuse_plan. split; [eauto | discriminate].
    + eexists (Get _). split; [intro; reflexivity|].
      split; [reflexivity|].
      intros path [= <-]. apply transactions_path_v1.
  - (* create_transaction *)
    unfold create_transaction.
    destruct (str_in tx_type _); cbn [negb orb];
      [|refuse_plan; split; [eauto | discriminate]].
    destruct (ApiTypes.isinstance _ source [TransferPeerPath]) eqn:Hsource;
      cbn [negb orb]; [|refuse_plan; split; [eauto | discriminate]].
    destruct source; try discriminate Hsource.
    destruct (truthy destination); cbn [andb].
    * destruct (ApiTypes.isinstance _ destination _) eqn:Hdestination;
        cbn [negb]; [|refuse_plan; split; [eauto | discriminate]].
      destruct destination; try discriminate Hdestination.
      helper_plan. plan_facts.
    * helper_plan. plan_facts.
Qed.

(** What an operation logs and returns, read off its plan. *)
Lemma call_carry_out (env : Env) (c : Call) :
  exists p,
    (forall st,
        new_events env c st = fst (carry_out env (self st) (log st) p)
        /\ fst (call env c st) = snd (carry_out env (self st) (log st) p))
    /\ (if refuses env c then exists e, p = Refuse e
        else plan_method p = Some (method_of c))
    /\ (forall path, plan_path p = Some path -> prefix "/v1/" path = true)
    /\ (forall st, call env c st = perform env p st).
Proof.
  destruct (call_plan env c) as [p [Hcall [Hcheck Hpath]]].
  exists p. split; [|repeat split; assumption].
  intros st. unfold new_events.
  rewrite Hcall, perform_carry_out. cbn [fst snd log].
  now rewrite skipn_exact.
Qed.

(** The events of a plan that is not a refusal start with the signing of
    the plan's path and body; a transport call in them has the plan's
    method and goes to the base URL followed by the plan's path. *)
Lemma carry_out_shape (env : Env) (me : FireblocksSDK) (history : list Event)
    (p : Plan) (m : Method) :
  plan_method p = Some m ->
  exists path rest,
    plan_path p = Some path
    /\ fst (carry_out env me history p)
       = SignJwt path (plan_body p)
           (env_sign_jwt env (token_provider me) history path (plan_body p))
         :: rest
    /\ forall ev, In ev rest ->
         exists req result,
           ev = Transport req result /\ method req = m
           /\ url req = base_url me ++ path.
Proof.
  destruct p as [e | path | path | path body | path body];
    cbn [plan_method]; intros [= <-]; exists path;
    cbn [carry_out plan_path plan_body]; unfold transmit; cbv zeta.
  all: match goal with
       | |- context [env_sign_jwt ?E ?tp ?h ?pa ?b] =>
           destruct (env_sign_jwt E tp h pa b) as [token|e]
       end.
  all: try (exists []; split; [reflexivity|]; split; [reflexivity|];
            intros ev []).
  all: try match goal with
       | |- context [env_json_dumps ?E ?b] =>
           destruct (env_json_dumps E b) as [data|e];
           [|exists []; split; [reflexivity|]; split; [reflexivity|];
             intros ev []]
       end.
  all: eexists; split; [reflexivity|]; split; [reflexivity|];
    intros ev [<- | []]; eexists; eexists; split; [reflexivity|];
    split; reflexivity.
Qed.

(** ** No retries *)

Lemma transport_calls_app (l l' : list Event) :
  transport_calls (l ++ l') = (transport_calls l + transport_calls l')%nat.
Proof. unfold transport_calls. now rewrite filter_app, length_app. Qed.

Lemma exchange_counts (env : Env) (me : FireblocksSDK) (before events : list Event)
    (out : Outcome PyVal) :
  Exchange env me before events out ->
  (sign_calls events <= 1)%nat
  /\ (transport_calls events <= sign_calls events)%nat
  /\ (length events <= 2)%nat.
Proof.
  intros Hex. destruct Hex; cbn; repeat split; lia.
Qed.

(** X1: an operation calls the signer at most once and the transport at
    most once, and never the transport without the signer: nothing is ever
    retried.  Over a sequence of operations the transport is called at most
    once per operation. *)
Theorem no_operation_retries (env : Env) :
  (forall c st,
      (sign_calls (new_events env c st) <= 1)%nat
      /\ (transport_calls (new_events env c st)
          <= sign_calls (new_events env c st))%nat)
  /\ (forall calls st,
      (transport_calls (log (session env calls st))
       <= transport_calls (log st) + length calls)%nat).
Proof.
  split.
  - intros c st. destruct (new_events_spec env c st) as [_ Hex].
    destruct (exchange_counts _ _ _ _ _ Hex) as [H1 [H2 _]]. now split.
  - intros calls. induction calls as [|c calls IH]; intros st.
    + cbn. lia.
    + cbn [session length]. specialize (IH (snd (call env c st))).
      destruct (new_events_spec env c st) as [Hsnd Hex].
      destruct (exchange_counts _ _ _ _ _ Hex) as [H1 [H2 _]].
      rewrite Hsnd in IH at 2. cbn [log] in IH.
      rewrite transport_calls_app in IH. lia.
Qed.

(** ** Failures of the collaborators *)

(** X2: when the signer raises, the operation raises the signer's
    exception as it is, and the transport is not called. *)
Theorem signer_failure_is_passed_on (env : Env) (c : Call) (st : State)
    (path : string) (body : option PyVal) (e : Exn) :
  In (SignJwt path body (Raise e)) (new_events env c st) ->
  fst (call env c st) = Raise e
  /\ new_events env c st = [SignJwt path body (Raise e)]
  /\ transport_calls (new_events env c st) = 0%nat.
Proof.
  intros Hin. destruct (new_events_spec env c st) as [_ Hex].
  destruct Hex as [e0 | path0 body0 e0 _ | path0 body0 token e0 _ _
                  | m path0 body0 token p req result _ _ _ _].
  - destruct Hin.
  - destruct Hin as [[= <- <- <-]|[]]. repeat split; reflexivity.
  - destruct Hin as [Heq|[]]. discriminate Heq.
  - destruct Hin as [Heq|[Heq|[]]]; discriminate Heq.
Qed.

Lemma signer_failure_witness :
  fst (call keyless_stub GetVaultAccounts Example.client)
  = Raise (ForeignError "invalid key")
  /\ new_events keyless_stub GetVaultAccounts Example.client
     = [SignJwt "/v1/vault/accounts" None (Raise (ForeignError "invalid key"))]
  /\ transport_calls (new_events keyless_stub GetVaultAccounts Example.client)
     = 0%nat.
Proof.
  apply (signer_failure_is_passed_on keyless_stub GetVaultAccounts Example.client
           "/v1/vault/accounts" None (ForeignError "invalid key")).
  left. reflexivity.
Defined.

(** X3: when the transport raises, the operation raises the transport's
    exception as it is: it is neither caught nor turned into the API's
    exception. *)
Theorem transport_failure_is_passed_on (env : Env) (c : Call) (st : State)
    (req : Request) (e : Exn) :
  In (Transport req (Raise e)) (new_events env c st) ->
  fst (call env c st) = Raise e.
Proof.
  intros Hin. destruct (new_events_spec env c st) as [_ Hex].
  destruct Hex as [e0 | path0 body0 e0 _ | path0 body0 token e0 _ _
                  | m path0 body0 token p req0 result _ _ _ _].
  - destruct Hin.
  - destruct Hin as [Heq|[]]. discriminate Heq.
  - destruct Hin as [Heq|[]]. discriminate Heq.
  - destruct Hin as [Heq|[Heq|[]]]; [discriminate Heq|].
    injection Heq as _ ->. reflexivity.
Qed.

Lemma transport_failure_witness :
  fst (call offline_stub (DeleteExternalWallet "w1") Example.client)
  = Raise (ForeignError "connection refused").
Proof.
  apply (transport_failure_is_passed_on offline_stub (DeleteExternalWallet "w1")
           Example.client
           {| method := DELETE;
              url := "https://api.fireblocks.io/v1/external_wallets/w1";
              headers := [("X-API-Key", "my-api-key");
                          ("Authorization", "Bearer token0")];
              payload := NoPayload |}
           (ForeignError "connection refused")).
  right. left. reflexivity.
Defined.

(** ** The headers of a request *)

(** X4: a request carries the API key and the bearer token and nothing
    else, except that PUT adds the JSON content type: the headers are
    exactly these, in this order. *)
Theorem headers_are_exactly (env : Env) (c : Call) (st : State)
    (req : Request) (result : Outcome Response) :
  In (Transport req result) (new_events env c st) ->
  exists token,
    headers req
    = ("X-API-Key", api_key (self st))
      :: ("Authorization", "Bearer " ++ token)
      :: match method req with
         | PUT => [("Content-Type", "application/json")]
         | _ => []
         end.
Proof.
  intros Hin. destruct (new_events_spec env c st) as [_ Hex].
  destruct Hex as [e0 | path0 body0 e0 _ | path0 body0 token e0 _ _
                  | m path0 body0 token p req0 result0 _ _ Hreq _].
  - destruct Hin.
  - destruct Hin as [Heq|[]]. discriminate Heq.
  - destruct Hin as [Heq|[]]. discriminate Heq.
  - destruct Hin as [Heq|[Heq|[]]]; [discriminate Heq|].
    injection Heq as <- _. exists token. rewrite Hreq.
    destruct m; reflexivity.
Qed.

Lemma headers_are_exactly_witness :
  exists token,
    [("X-API-Key", "my-api-key"); ("Authorization", "Bearer token0");
     ("Content-Type", "application/json")]
    = ("X-API-Key", "my-api-key")
      :: ("Authorization", "Bearer " ++ token)
      :: [("Content-Type", "application/json")].
Proof.
  apply (headers_are_exactly (Example.stub Example.ok)
           (SetAddressDescription "0" "BTC" "bc1q" None (Some "cold storage"))
           Example.client
           {| method := PUT;
              url := "https://api.fireblocks.io/v1/vault/accounts/0/BTC/addresses/bc1q:";
              headers := [("X-API-Key", "my-api-key");
                          ("Authorization", "Bearer token0");
                          ("Content-Type", "application/json")];
              payload := DataKw ("{" ++ Json.quote "description" ++ ": "
                                 ++ Json.quote "cold storage" ++ "}") |}
           (Return Example.ok)).
  right. left. vm_compute. reflexivity.
Defined.

(** ** Argument checks, methods and paths *)

Lemma plan_cases (p : Plan) :
  (exists e, p = Refuse e) \/ (exists m, plan_method p = Some m).
Proof. destruct p; cbn; eauto. Qed.


(** X6: an operation only ever sends with its own method: the getters
    with GET, the four [delete_] operations with DELETE,
    [set_address_description] with PUT and the others with POST, whatever
    the arguments and the state. *)
Theorem operation_sends_with_its_method (env : Env) (c : Call) (st : State)
    (req : Request) (result : Outcome Response) :
  In (Transport req result) (new_events env c st) ->
  method req = method_of c.
Proof.
  intros Hin.
  destruct (call_carry_out env c) as [p [Hrun [Hcheck _]]].
  destruct (Hrun st) as [Hevents _]. rewrite Hevents in Hin.
  destruct (refuses env c).
  - destruct Hcheck as [e ->]. destruct Hin.
  - destruct (carry_out_shape env (self st) (log st) p _ Hcheck)
      as [path [rest [_ [Hshape Hrest]]]].
    rewrite Hshape in Hin. destruct Hin as [Heq | Hin]; [discriminate Heq|].
    destruct (Hrest _ Hin) as [req' [result' [[= <- <-] [Hm _]]]].
    exact Hm.
Qed.

Lemma operation_sends_with_its_method_witness :
  method {| method := POST;
            url := "https://api.fireblocks.io/v1/transactions/tx1/cancel";
            headers := [("X-API-Key", "my-api-key");
                        ("Authorization", "Bearer token0")];
            payload := JsonKw (PyDict []) |}
  = method_of (CancelTransactionById "tx1").
Proof.
  apply (operation_sends_with_its_method (Example.stub Example.ok)
           (CancelTransactionById "tx1") Example.client _ (Return Example.ok)).
  right. left. reflexivity.
Defined.

(** X7: every path the client signs, and so every URL it requests, is
    under [/v1/]: the URL is the base URL, as given, followed by a path that
    starts with [/v1/]. *)
Theorem every_path_is_under_v1 (env : Env) (c : Call) (st : State) :
  (forall path body r,
      In (SignJwt path body r) (new_events env c st) -> prefix "/v1/" path = true)
  /\ (forall req result,
      In (Transport req result) (new_events env c st) ->
      exists path,
        url req = base_url (self st) ++ path /\ prefix "/v1/" path = true).
Proof.
  destruct (call_carry_out env c) as [p [Hrun [_ [Hpath _]]]].
  destruct (Hrun st) as [Hevents _]. rewrite Hevents.
  destruct (plan_cases p) as [[e ->] | [m Hm]].
  - split; intros; contradiction.
  - destruct (carry_out_shape env (self st) (log st) p m Hm)
      as [path [rest [Hp [Hshape Hrest]]]].
    rewrite Hshape. specialize (Hpath path Hp). split.
    + intros path' body r [[= <- _ _] | Hin]; [exact Hpath|].
      destruct (Hrest _ Hin) as [req [result [Heq _]]]. discriminate Heq.
    + intros req result [Heq | Hin]; [discriminate Heq|].
      destruct (Hrest _ Hin) as [req' [result' [[= <- <-] [_ Hurl]]]].
      exists path. split; assumption.
Qed.

(** ** Calls do not depend on one another *)

Lemma carry_out_history_free (env : Env) (me : FireblocksSDK)
    (h1 h2 : list Event) (p : Plan) :
  history_free env ->
  carry_out env me h1 p = carry_out env me h2 p.
Proof.
  intros [Hsign Hsend].
  destruct p as [e | path | path | path body | path body];
    cbn [carry_out]; unfold transmit; cbv zeta;
    try reflexivity;
    match goal with
    | |- context [env_sign_jwt env ?tp h1 ?pa ?b] =>
        rewrite (Hsign tp h1 h2 pa b);
        destruct (env_sign_jwt env tp h2 pa b) as [token|e]; [|reflexivity]
    end;
    try (destruct (env_json_dumps env body) as [data|e]; [|reflexivity]);
    match goal with
    | |- context [env_requests env (h1 ++ ?l) ?r] =>
        rewrite (Hsend (h1 ++ l)%list (h2 ++ l)%list r)
    end; reflexivity.
Qed.

(** X8: the client keeps nothing from one call to the next.  With
    collaborators that answer without regard to earlier calls, an operation
    logs the same events and has the same outcome in any two states of the
    same client, and so after any sequence of earlier calls. *)
Theorem calls_are_independent (env : Env) :
  history_free env ->
  (forall c st1 st2,
      self st1 = self st2 ->
      new_events env c st1 = new_events env c st2
      /\ fst (call env c st1) = fst (call env c st2))
  /\ (forall c earlier st,
      fst (call env c (session env earlier st)) = fst (call env c st)).
Proof.
  intros Hfree.
  assert (Hsame : forall c st1 st2,
             self st1 = self st2 ->
             new_events env c st1 = new_events env c st2
             /\ fst (call env c st1) = fst (call env c st2)).
  { intros c st1 st2 Hself.
    destruct (call_carry_out env c) as [p [Hrun _]].
    destruct (Hrun st1) as [He1 Ho1]. destruct (Hrun st2) as [He2 Ho2].
    rewrite He1, He2, Ho1, Ho2, Hself.
    rewrite (carry_out_history_free env (self st2) (log st1) (log st2) p Hfree).
    split; reflexivity. }
  split; [exact Hsame|].
  intros c earlier st. apply Hsame. apply session_self.
Qed.

Lemma plain_stub_history_free (response : Response) :
  history_free (plain_stub response).
Proof. split; reflexivity. Qed.

Lemma calls_are_independent_witness :
  fst (call (plain_stub Example.ok) GetVaultAccounts
         (session (plain_stub Example.ok) two_calls Example.client))
  = fst (call (plain_stub Example.ok) GetVaultAccounts Example.client).
Proof.
  apply (proj2 (calls_are_independent (plain_stub Example.ok)
                  (plain_stub_history_free Example.ok))).
Defined.

(** ** The query string of [get_transactions], in full *)

Lemma string_app_assoc (a b c : string) : (a ++ b) ++ c = a ++ b ++ c.
Proof. induction a as [|x a IH]; cbn; [reflexivity | now rewrite IH]. Qed.










(** A decimal number is written as it is. *)
Lemma quote_plus_uint (d : Decimal.uint) :
  Urllib.quote_plus (NilEmpty.string_of_uint d) = NilEmpty.string_of_uint d.
Proof.
  induction d; cbn [NilEmpty.string_of_uint Urllib.quote_plus];
    [reflexivity | rewrite IHd; reflexivity ..].
Qed.

Lemma quote_plus_int (z : Z) : Urllib.quote_plus (str_of_int z) = str_of_int z.
Proof.
  unfold str_of_int, NilZero.string_of_int.
  destruct (Z.to_int z) as [d|d]; unfold NilZero.string_of_uint.
  - destruct d; try reflexivity; apply quote_plus_uint.
  - destruct d; try reflexivity;
      cbn [Urllib.quote_plus];
      match goal with
      | |- (_ ++ Urllib.quote_plus ?s)%string = _ =>
          change (String "-" (Urllib.quote_plus s) = String "-" s)
      end; f_equal; apply quote_plus_uint.
Qed.

(** X10: with every filter set, [get_transactions] asks for the filters in
    the order [before], [after], [status], [orderBy], [limit], the numbers in
    decimal and the two strings quoted. *)
Theorem transactions_path_with_every_filter (env : Env) (before after limit : Z)
    (status order_by : string) (st : State) :
  before <> 0 -> after <> 0 -> limit <> 0 ->
  status <> "" -> order_by <> "" ->
  In status (ApiTypes.TRANSACTION_STATUS_TYPES (env_api env)) ->
  get_transactions env (Some before) (Some after) (Some status) (Some limit)
    (Some order_by) st
  = _get_request env
      ("/v1/transactions?before=" ++ str_of_int before
       ++ "&after=" ++ str_of_int after
       ++ "&status=" ++ Urllib.quote_plus status
       ++ "&orderBy=" ++ Urllib.quote_plus order_by
       ++ "&limit=" ++ str_of_int limit) st.
Proof.
  intros Hb Ha Hl Hs Ho Hin.
  unfold get_transactions, status_refused, transactions_params,
    set_if_int, set_if_str.
  apply str_in_true in Hin. rewrite Hin, andb_false_r.
  apply Z.eqb_neq in Hb, Ha, Hl. rewrite Hb, Ha, Hl.
  rewrite (str_truthy_true _ Hs), (str_truthy_true _ Ho).
  cbn [negb dict_set String.eqb Ascii.eqb Bool.eqb].
  unfold Urllib.urlencode.
  cbn [map String.concat fst snd Urllib.str_of].
  rewrite !quote_plus_int.
  change (Urllib.quote_plus "before") with "before".
  change (Urllib.quote_plus "after") with "after".
  change (Urllib.quote_plus "status") with "status".
  change (Urllib.quote_plus "orderBy") with "orderBy".
  change (Urllib.quote_plus "limit") with "limit".
  rewrite !string_app_assoc. reflexivity.
Qed.

Lemma transactions_path_with_every_filter_witness :
  get_transactions (Example.stub Example.ok) (Some 1700000000000) (Some (-5))
    (Some "COMPLETED") (Some 50) (Some "created at") Example.client
  = _get_request (Example.stub Example.ok)
      ("/v1/transactions?before=" ++ "1700000000000"
       ++ "&after=" ++ "-5"
       ++ "&status=" ++ "COMPLETED"
       ++ "&orderBy=" ++ "created+at"
       ++ "&limit=" ++ "50") Example.client.
Proof.
  apply (transactions_path_with_every_filter (Example.stub Example.ok)
           1700000000000 (-5) 50 "COMPLETED" "created at" Example.client);
    try discriminate.
  cbn. tauto.
Defined.

(** ** Optional arguments and request bodies *)

(** X11: an optional argument that is falsy is the same as one left out.
    [create_transaction] with a falsy fee, gas price and destination (zero,
    the empty string, an empty dict, [False]) is the call with all three
    [None]; the two [create_*_wallet_asset] methods with a falsy tag are the
    calls with no tag; and for [generate_new_address] and
    [set_address_description] a missing description or tag is the empty
    one. *)
Theorem falsy_optionals_are_left_out (env : Env) (st : State) :
  (forall asset_id amount source destination fee gas_price wait_for_status tx_type,
      truthy fee = false -> truthy gas_price = false ->
      truthy destination = false ->
      create_transaction env asset_id amount source destination fee gas_price
        wait_for_status tx_type st
      = create_transaction env asset_id amount source PyNone PyNone PyNone
          wait_for_status tx_type st)
  /\ (forall wallet_id asset_id address tag,
      truthy tag = false ->
      create_external_wallet_asset env wallet_id asset_id address tag st
      = create_external_wallet_asset env wallet_id asset_id address PyNone st
      /\ create_internal_wallet_asset env wallet_id asset_id address tag st
         = create_internal_wallet_asset env wallet_id asset_id address PyNone st)
  /\ (forall vault_account_id asset_id,
      generate_new_address env vault_account_id asset_id None st
      = generate_new_address env vault_account_id asset_id (Some "") st)
  /\ (forall vault_account_id asset_id address,
      set_address_description env vault_account_id asset_id address None None st
      = set_address_description env vault_account_id asset_id address
          (Some "") (Some "") st).
Proof.
  split; [|split; [|split]].
  - intros asset_id amount source destination fee gas_price wait_for_status
      tx_type Hfee Hgas Hdestination.
    unfold create_transaction. rewrite Hfee, Hgas, Hdestination. reflexivity.
  - intros wallet_id asset_id address tag Htag.
    unfold create_external_wallet_asset, create_internal_wallet_asset,
      wallet_asset_body.
    rewrite Htag. split; reflexivity.
  - reflexivity.
  - reflexivity.
Qed.

Lemma falsy_optionals_witness :
  create_transaction (Example.stub Example.ok) (PyStr "BTC") (PyInt 1) Example.vault
    (PyDict []) (PyInt 0) (PyStr "") (PyBool false) "TRANSFER" Example.client
  = create_transaction (Example.stub Example.ok) (PyStr "BTC") (PyInt 1)
      Example.vault PyNone PyNone PyNone (PyBool false) "TRANSFER" Example.client.
Proof.
  apply (proj1 (falsy_optionals_are_left_out (Example.stub Example.ok)
                  Example.client)); reflexivity.
Defined.

(** X12: when its checks pass, [create_transaction] posts to
    [/v1/transactions] a body with the keys [assetId], [amount], [source],
    [waitForStatus] and [operation], in this order, followed by [fee],
    [gasPrice] and [destination] for those that are truthy.  The source and
    the destination are given by their attributes, the operation is the
    transaction type, and the other values are the arguments as passed. *)
Theorem transaction_body (env : Env) (asset_id amount source destination fee
    gas_price wait_for_status : PyVal) (tx_type : string) (st : State) :
  refuses env (CreateTransaction asset_id amount source destination fee gas_price
                 wait_for_status tx_type) = false ->
  exists body source_dict,
    create_transaction env asset_id amount source destination fee gas_price
      wait_for_status tx_type st
    = _post_request env "/v1/transactions" (PyDict body) st
    /\ map fst body
       = (["assetId"; "amount"; "source"; "waitForStatus"; "operation"]
          ++ (if truthy fee then ["fee"] else [])
          ++ (if truthy gas_price then ["gasPrice"] else [])
          ++ (if truthy destination then ["destination"] else []))%list
    /\ dict_get body "assetId" = Some asset_id
    /\ dict_get body "amount" = Some amount
    /\ dunder_dict source = Return source_dict
    /\ dict_get body "source" = Some source_dict
    /\ dict_get body "waitForStatus" = Some wait_for_status
    /\ dict_get body "operation" = Some (PyStr tx_type)
    /\ dict_get body "fee" = (if truthy fee then Some fee else None)
    /\ dict_get body "gasPrice" = (if truthy gas_price then Some gas_price else None)
    /\ (if truthy destination
        then exists destination_dict,
               dunder_dict destination = Return destination_dict
               /\ dict_get body "destination" = Some destination_dict
        else dict_get body "destination" = None).
Proof.
  cbn [refuses]. intros Hchecks.
  apply orb_false_iff in Hchecks. destruct Hchecks as [Hchecks Hdestination].
  apply orb_false_iff in Hchecks. destruct Hchecks as [Htype Hsource].
  unfold create_transaction. rewrite Htype, Hsource.
  destruct source as [| | | | | |cls attrs|]; try discriminate Hsource.
  rewrite bind_lift. cbn [dunder_dict].
  destruct (truthy destination) eqn:Htruthy.
  - cbn [andb] in Hdestination. rewrite Hdestination.
    destruct destination as [| | | | | |dcls dattrs|];
      try discriminate Hdestination.
    destruct (truthy fee), (truthy gas_price);
      (eexists; exists (PyDict attrs); split; [reflexivity|];
       repeat split; try reflexivity;
       exists (PyDict dattrs); split; reflexivity).
  - destruct (truthy fee), (truthy gas_price);
      (eexists; exists (PyDict attrs); split; [reflexivity|];
       repeat split; reflexivity).
Qed.

Lemma transaction_body_witness :
  exists body source_dict,
    create_transaction (Example.stub Example.ok) (PyStr "BTC") (PyInt 1)
      Example.vault PyNone (PyInt 2) PyNone (PyBool false) "TRANSFER" Example.client
    = _post_request (Example.stub Example.ok) "/v1/transactions" (PyDict body)
        Example.client
    /\ map fst body
       = ["assetId"; "amount"; "source"; "waitForStatus"; "operation"; "fee"]
    /\ dict_get body "assetId" = Some (PyStr "BTC")
    /\ dict_get body "amount" = Some (PyInt 1)
    /\ dunder_dict Example.vault = Return source_dict
    /\ dict_get body "source" = Some source_dict
    /\ dict_get body "waitForStatus" = Some (PyBool false)
    /\ dict_get body "operation" = Some (PyStr "TRANSFER")
    /\ dict_get body "fee" = Some (PyInt 2)
    /\ dict_get body "gasPrice" = None
    /\ dict_get body "destination" = None.
Proof.
  apply (transaction_body (Example.stub Example.ok) (PyStr "BTC") (PyInt 1)
           Example.vault PyNone (PyInt 2) PyNone (PyBool false) "TRANSFER"
           Example.client).
  reflexivity.
Defined.

(** ** What a normal return means *)

(** X13: an operation returns a value only as the decoded body of a
    response it has just received with a status below 300, after one signing
    and one request: no value is ever made up, cached or returned on a
    failure. *)
Theorem a_return_is_a_decoded_response (env : Env) (c : Call) (st : State)
    (v : PyVal) :
  fst (call env c st) = Return v ->
  exists path body token req response,
    new_events env c st
    = [SignJwt path body (Return token); Transport req (Return response)]
    /\ status_code response < 300
    /\ env_json_loads env (text response) = Some v.
Proof.
  intros Hreturn. destruct (new_events_spec env c st) as [_ Hex].
  rewrite Hreturn in Hex.
  inversion Hex as [e He Hout | path body e _ He Hout
                   | path body token e _ _ He Hout
                   | m path body token p req result _ _ _ _ He Hout].
  destruct result as [response|e]; [|discriminate Hout].
  exists path, body, token, req, response. split; [reflexivity|].
  unfold reply in Hout.
  destruct (Z.leb_spec 300 (status_code response)); [discriminate Hout|].
  split; [assumption|].
  destruct (env_json_loads env (text response)); [|discriminate Hout].
  now injection Hout as ->.
Qed.

Lemma a_return_is_a_decoded_response_witness :
  exists path body token req response,
    new_events (Example.stub Example.ok) GetVaultAccounts Example.client
    = [SignJwt path body (Return token); Transport req (Return response)]
    /\ status_code response < 300
    /\ Json.loads (text response) = Some (PyDict [("id", PyStr "abc")]).
Proof.
  apply (a_return_is_a_decoded_response (Example.stub Example.ok) GetVaultAccounts
           Example.client (PyDict [("id", PyStr "abc")])).
  reflexivity.
Defined.

(** ** The private key *)

Lemma headers_for_same_key (m : Method) (me1 me2 : FireblocksSDK) (token : string) :
  api_key me1 = api_key me2 ->
  headers_for m me1 token = headers_for m me2 token.
Proof. intros Hkey. destruct m; cbn; now rewrite Hkey. Qed.

Lemma carry_out_same_signer (env : Env) (me1 me2 : FireblocksSDK)
    (history : list Event) (p : Plan) :
  api_key me1 = api_key me2 ->
  base_url me1 = base_url me2 ->
  (forall path body,
      env_sign_jwt env (token_provider me1) history path body
      = env_sign_jwt env (token_provider me2) history path body) ->
  carry_out env me1 history p = carry_out env me2 history p.
Proof.
  intros Hkey Hurl Hsign.
  destruct p as [e | path | path | path body | path body];
    cbn [carry_out]; unfold transmit; cbv zeta;
    rewrite ?Hsign, ?Hurl; try reflexivity;
    match goal with
    | |- context [env_sign_jwt env ?tp ?h ?pa ?b] =>
        destruct (env_sign_jwt env tp h pa b) as [token|e]; [|reflexivity]
    end;
    rewrite (headers_for_same_key _ me1 me2 token Hkey); reflexivity.
Qed.

(** X14: the private key reaches nothing but the signer.  Two clients
    with the same API key and base URL whose signers give the same tokens log
    the same requests, header for header, and have the same outcomes,
    whatever their private keys. *)
Theorem private_key_only_reaches_the_signer (env : Env) (c : Call)
    (st1 st2 : State) :
  log st1 = log st2 ->
  api_key (self st1) = api_key (self st2) ->
  base_url (self st1) = base_url (self st2) ->
  (forall path body,
      env_sign_jwt env (token_provider (self st1)) (log st1) path body
      = env_sign_jwt env (token_provider (self st2)) (log st1) path body) ->
  new_events env c st1 = new_events env c st2
  /\ fst (call env c st1) = fst (call env c st2).
Proof.
  intros Hlog Hkey Hurl Hsign.
  destruct (call_carry_out env c) as [p [Hrun _]].
  destruct (Hrun st1) as [He1 Ho1]. destruct (Hrun st2) as [He2 Ho2].
  rewrite He1, He2, Ho1, Ho2, <- Hlog.
  rewrite (carry_out_same_signer env (self st1) (self st2) (log st1) p
             Hkey Hurl Hsign).
  split; reflexivity.
Qed.

Lemma private_key_witness :
  new_events (Example.stub Example.ok) (CreateInternalWallet (PyStr "Treasury"))
    (start "PEM of one key" "my-api-key" default_api_base_url)
  = new_events (Example.stub Example.ok) (CreateInternalWallet (PyStr "Treasury"))
      (start "PEM of another key" "my-api-key" default_api_base_url)
  /\ fst (call (Example.stub Example.ok) (CreateInternalWallet (PyStr "Treasury"))
            (start "PEM of one key" "my-api-key" default_api_base_url))
     = fst (call (Example.stub Example.ok) (CreateInternalWallet (PyStr "Treasury"))
              (start "PEM of another key" "my-api-key" default_api_base_url)).
Proof.
  apply (private_key_only_reaches_the_signer (Example.stub Example.ok)
           (CreateInternalWallet (PyStr "Treasury"))
           (start "PEM of one key" "my-api-key" default_api_base_url)
           (start "PEM of another key" "my-api-key" default_api_base_url));
    reflexivity.
Defined.
